(** * Statistical analysis of flood-wave graphs

    A shallow embedding of [src/analysis/statistical_analysis.py]
    (class [StatisticalAnalysis]) together with the properties its
    specification states about it.

    Conventions of the embedding:
    - Python [int] and [numpy.int64] loop counters are [Z] (every value
      that occurs lies between 1875 and 2020 plus a period length, so
      the sums are those of the code for every period length up to
      2^63 - 1876, where [year + period - 1] is still an int64);
    - Python [float] / [numpy.float64] is Rocq's binary64 [float];
    - [str] is [string], compared and searched as Python does
      (lexicographic order on characters, substring containment);
    - a raised exception is the [Raise] branch of [result];
    - [FloodWaveHandler], [GraphAnalysis], [AnalysisHandler], [networkx]
      and [numpy] are collaborators that live outside the file: they are
      section variables (or fields of the [Numpy] class), never defined
      from the specification's words. *)

From Stdlib Require Import ZArith List String Ascii Floats Uint63 Lia DecimalString
  DecimalZ DecimalPos.
From stdpp Require Import gmap strings list.
Import ListNotations.

Local Open Scope string_scope.
Local Open Scope list_scope.
Local Open Scope Z_scope.

(** ** Python values and control *)

Module Py.

Inductive exn : Type :=
| KeyError
| IndexError
| ValueError
| ZeroDivisionError
| FileNotFoundError
| JSONDecodeError.

Inductive result (A : Type) : Type :=
| Ok (a : A)
| Raise (e : exn).

Arguments Ok {A} a.
Arguments Raise {A} e.

Definition bind {A B : Type} (m : result A) (k : A -> result B) : result B :=
  match m with
  | Ok a => k a
  | Raise e => Raise e
  end.

Definition is_ok {A : Type} (m : result A) : bool :=
  match m with Ok _ => true | Raise _ => false end.

(** [str(n)] and [f'{n}'] for an integer. *)
Definition str_int (n : Z) : string := NilZero.string_of_int (Z.to_int n).

(** [prefix in s] at the head of [s]. *)
Fixpoint startswith (p s : string) : bool :=
  match p, s with
  | EmptyString, _ => true
  | String a p', String b s' => Ascii.eqb a b && startswith p' s'
  | String _ _, EmptyString => false
  end.

(** [needle in hay] on strings. *)
Fixpoint contains (needle hay : string) : bool :=
  startswith needle hay ||
  match hay with
  | EmptyString => false
  | String _ hay' => contains needle hay'
  end.

(** [range(a, b)]. *)
Definition range (a b : Z) : list Z := seqZ a (b - a).

(** [l.count(x)] on a list of strings. *)
Fixpoint count (x : string) (l : list string) : Z :=
  match l with
  | [] => 0
  | y :: l' => (if String.eqb y x then 1 else 0) + count x l'
  end.

(** [d[k]] on a dict kept as its items in insertion order (keys are
    distinct in a dict; the first item with the key is the one found). *)
Fixpoint getitem {V : Type} (d : list (string * V)) (k : string) : result V :=
  match d with
  | [] => Raise KeyError
  | (k', v) :: d' => if String.eqb k' k then Ok v else getitem d' k
  end.

(** [d[k]] on a dict used only through lookups. *)
Definition lookup_key {V : Type} (d : gmap string V) (k : string) : result V :=
  match d !! k with
  | Some v => Ok v
  | None => Raise KeyError
  end.

(** [list(d.keys())]. *)
Definition keys {V : Type} (d : list (string * V)) : list string := map fst d.

(** [l[i]] on a list, for [i >= 0]. *)
Definition list_getitem {A : Type} (l : list A) (i : nat) : result A :=
  match l !! i with
  | Some a => Ok a
  | None => Raise IndexError
  end.

(** A loop whose body may raise: the accumulator is threaded through the
    elements in order and the first exception ends the loop. *)
Fixpoint for_each {A B : Type} (body : A -> B -> result A) (l : list B) (acc : A)
  : result A :=
  match l with
  | [] => Ok acc
  | b :: l' => bind (body acc b) (for_each body l')
  end.

(** The integer [n] as a float, as numpy stores a count in a float64
    array and as [/] converts its operands: exact for [0 <= n < 2^53]. *)
Definition float_of_int (n : Z) : float := PrimFloat.of_uint63 (Uint63.of_Z n).

(** [a / b] on two integers (true division). *)
Definition truediv (a b : Z) : result float :=
  if b =? 0 then Raise ZeroDivisionError
  else Ok (PrimFloat.div (float_of_int a) (float_of_int b)).

(** A gauge identifier is an integer or a string; [str(gauge)] and
    [f'{gauge}'] agree on both. *)
Inductive gauge : Type :=
| GInt (n : Z)
| GStr (s : string).

Definition str (g : gauge) : string :=
  match g with
  | GInt n => str_int n
  | GStr s => s
  end.

End Py.

Import Py.

Declare Scope py_scope.
Delimit Scope py_scope with py.
Notation "'try!' x := m 'in' k" := (bind m (fun x => k))
  (at level 10, x name, m at level 100, k at level 200,
   format "'[v' 'try!'  x  :=  m  'in' '/' k ']'") : py_scope.
Local Open Scope py_scope.

(** ** numpy *)

(** The five reductions the module calls on a sequence of floats.
    [np.min] and [np.max] raise [ValueError] on an empty sequence;
    [np.mean], [np.median] and [np.std] return a float (NaN there). *)
Class Numpy : Type := {
  np_min : list float -> result float;
  np_max : list float -> result float;
  np_mean : list float -> float;
  np_median : list float -> float;
  np_std : list float -> float
}.

Module Np.

(** [np.arange(start, stop, step)] on integers: [ceil((stop-start)/step)]
    elements, none when that is negative; a zero step raises. *)
Definition arange (start stop step : Z) : result (list Z) :=
  if step =? 0 then Raise ZeroDivisionError
  else Ok (map (fun k => start + k * step) (seqZ 0 (- ((start - stop) / step)))).

(** [np.zeros((rows, cols))]. *)
Definition zeros (rows cols : nat) : list (list float) :=
  replicate rows (replicate cols 0%float).

(** An index into an axis of size [n]: negative indices count from the
    end, anything outside [-n .. n-1] raises [IndexError]. *)
Definition axis_index (n : nat) (i : Z) : result nat :=
  if (0 <=? i) && (i <? Z.of_nat n) then Ok (Z.to_nat i)
  else if (- Z.of_nat n <=? i) && (i <? 0) then Ok (Z.to_nat (i + Z.of_nat n))
  else Raise IndexError.

(** [m[r, c] = v] on a two-dimensional array. *)
Definition setitem2 (m : list (list float)) (r c : Z) (v : float)
  : result (list (list float)) :=
  try! r' := axis_index (length m) r in
  match m !! r' with
  | None => Raise IndexError
  | Some row =>
      try! c' := axis_index (length row) c in
      Ok (<[r' := <[c' := v]> row]> m)
  end.

(** *** A reference instance

    The textbook formulas evaluated left to right in binary64: the
    running minimum and maximum (a NaN operand wins), the sum divided by
    the count, the middle of the sorted sequence (the mean of the two
    middle elements for an even count), the square root of the mean
    squared deviation (population form, [ddof=0]).  numpy adds in
    pairwise blocks from eight addends on, so the sum agrees with it on
    shorter sequences. *)

Definition fmin (a b : float) : float :=
  if PrimFloat.is_nan a then a
  else if PrimFloat.is_nan b then b
  else if PrimFloat.ltb b a then b else a.

Definition fmax (a b : float) : float :=
  if PrimFloat.is_nan a then a
  else if PrimFloat.is_nan b then b
  else if PrimFloat.ltb a b then b else a.

Definition reduce (op : float -> float -> float) (l : list float) : result float :=
  match l with
  | [] => Raise ValueError
  | x :: l' => Ok (fold_left op l' x)
  end.

Definition sum (l : list float) : float :=
  match l with
  | [] => 0%float
  | x :: l' => fold_left PrimFloat.add l' x
  end.

Definition mean (l : list float) : float :=
  PrimFloat.div (sum l) (float_of_int (Z.of_nat (length l))).

Fixpoint insert_sorted (x : float) (l : list float) : list float :=
  match l with
  | [] => [x]
  | y :: l' => if PrimFloat.leb x y then x :: l else y :: insert_sorted x l'
  end.

Definition sort (l : list float) : list float := fold_right insert_sorted [] l.

Definition median (l : list float) : float :=
  if existsb PrimFloat.is_nan l then PrimFloat.nan
  else
    let s := sort l in
    let n := length l in
    let h := Nat.div n 2 in
    if Nat.eqb n 0 then PrimFloat.nan
    else if Nat.odd n then nth h s PrimFloat.nan
    else mean [nth (h - 1) s PrimFloat.nan; nth h s PrimFloat.nan].

Definition std (l : list float) : float :=
  let m := mean l in
  PrimFloat.sqrt
    (mean (map (fun x => let d := PrimFloat.abs (PrimFloat.sub x m) in
                         PrimFloat.mul d d) l)).

Definition reference : Numpy := {|
  np_min := reduce fmin;
  np_max := reduce fmax;
  np_mean := mean;
  np_median := median;
  np_std := std
|}.

End Np.

(** ** pandas *)

Module Pd.

Inductive cell : Type :=
| CInt (n : Z)
| CFloat (x : float).

Inductive label : Type :=
| LInt (n : Z)
| LStr (s : string).

(** A table: the row labels and the named columns, in order. *)
Record DataFrame : Type := {
  df_index : list label;
  df_columns : list (string * list cell)
}.

(** [pd.DataFrame(data)] and [pd.DataFrame(data, index=index)] for a dict
    of columns: all columns (and the index, when given) must have one
    length; without an index the rows are numbered from 0. *)
Definition of_dict (data : list (string * list cell)) (index : option (list label))
  : result DataFrame :=
  match data with
  | [] => Ok {| df_index := default [] index; df_columns := [] |}
  | (_, c0) :: _ =>
      let n := length c0 in
      if forallb (fun kc => Nat.eqb (length (snd kc)) n) data then
        match index with
        | None =>
            Ok {| df_index := map LInt (range 0 (Z.of_nat n)); df_columns := data |}
        | Some ix =>
            if Nat.eqb (length ix) n
            then Ok {| df_index := ix; df_columns := data |}
            else Raise ValueError
        end
      else Raise ValueError
  end.

(** [pd.DataFrame(matrix, index=index, columns=columns)] for a
    two-dimensional array: its shape must be
    [(len(index), len(columns))]. *)
Definition of_matrix (m : list (list float)) (index : list label)
    (columns : list string) : result DataFrame :=
  if Nat.eqb (length m) (length index)
     && forallb (fun row => Nat.eqb (length row) (length columns)) m
  then Ok {| df_index := index;
             df_columns :=
               imap (fun j name => (name, map (fun row => CFloat (nth j row 0%float)) m))
                    columns |}
  else Raise ValueError.

(** Number of rows and of columns. *)
Definition nrows (df : DataFrame) : nat := length (df_index df).
Definition ncols (df : DataFrame) : nat := length (df_columns df).

(** The cell at row position [r] of the column at position [c]. *)
Definition iat (df : DataFrame) (r c : nat) : option cell :=
  match df_columns df !! c with
  | Some (_, col) => col !! r
  | None => None
  end.

(** The column called [name]. *)
Definition column (df : DataFrame) (name : string) : option (list cell) :=
  match getitem (df_columns df) name with
  | Ok col => Some col
  | Raise _ => None
  end.

End Pd.

Import Pd.

(** A node of the propagation graph is a [(gauge, date)] tuple; a branch
    is a sequence of nodes. *)
Definition node : Type := gauge * string.
Definition branch : Type := list node.

(** ** Flood waves of a single year *)

Section FloodWaves.

Variables Graph GaugePairs : Type.

(** [FloodWaveHandler.create_directed_graph(start_date, end_date,
    gauge_pairs, folder_name)]. *)
Variable create_directed_graph : string -> string -> GaugePairs -> string -> Graph.

(** [GraphAnalysis.get_branching(joined_graph)]. *)
Variable get_branching : Graph -> list branch.

(** Lines 267-275: the widened window [(start_date, end_date)]. *)
Definition flood_wave_window (year : Z) : string * string :=
  if year =? 1876 then
    (str_int year +:+ "-01-01", str_int (year + 1) +:+ "-02-01")
  else if year =? 2019 then
    (str_int (year - 1) +:+ "-11-30", str_int year +:+ "-12-31")
  else
    (str_int (year - 1) +:+ "-11-30", str_int (year + 1) +:+ "-02-01").

(** Lines 286-288: the condition under which a branch is appended. *)
Definition starts_in_year (year : Z) (b : branch) : bool :=
  let node_dates := map snd b in
  negb (existsb (fun node_date => contains (str_int (year - 1)) node_date) node_dates)
  && negb (forallb (fun node_date => contains (str_int (year + 1)) node_date) node_dates).

(** Lines 284-289: the loop appending to [cleaned_branches]. *)
Fixpoint clean_branches (year : Z) (branches cleaned_branches : list branch)
  : list branch :=
  match branches with
  | [] => cleaned_branches
  | b :: rest =>
      if starts_in_year year b
      then clean_branches year rest (cleaned_branches ++ [b])
      else clean_branches year rest cleaned_branches
  end.

Definition get_flood_waves_yearly (year : Z) (gauge_pairs : GaugePairs)
    (folder_name : string) : list branch :=
  let '(start_date, end_date) := flood_wave_window year in
  let graph := create_directed_graph start_date end_date gauge_pairs folder_name in
  let branches := get_branching graph in
  clean_branches year branches [].

(** Lines 301-310: one count per year (progress printing has no effect
    on the value). *)
Definition get_number_of_flood_waves_yearly (gauge_pairs : GaugePairs)
    (folder_name : string) : list Z :=
  fold_left
    (fun number_of_flood_waves i =>
       let cleaned_branches := get_flood_waves_yearly i gauge_pairs folder_name in
       number_of_flood_waves ++ [Z.of_nat (length cleaned_branches)])
    (range 1876 2020) [].

(** The branch decomposition the year filter is applied to. *)
Definition window_branches (year : Z) (gauge_pairs : GaugePairs)
    (folder_name : string) : list branch :=
  get_branching
    (create_directed_graph (fst (flood_wave_window year))
       (snd (flood_wave_window year)) gauge_pairs folder_name).

End FloodWaves.

(** ** Windows and periods, as the specification names them *)

(** The dataset spans the years 1876..2019. *)
Definition dataset_years : list Z := range 1876 2020.

Definition first_day (year : Z) : string := str_int year +:+ "-01-01".
Definition last_day (year : Z) : string := str_int year +:+ "-12-31".

(** The [period]-year period that starts with [year], and its label
    [{start_date}_{end_date}]. *)
Definition period_end (year period : Z) : Z := year + period - 1.
Definition period_label (year period : Z) : string :=
  first_day year +:+ "_" +:+ last_day (period_end year period).

(** The first years of the non-overlapping [period]-year periods that
    start at 1876 and end no later than 2019. *)
Definition complete_periods (period : Z) : list Z :=
  map (fun k => 1876 + k * period) (seqZ 0 (144 / period)).

(** A date string lies in the period when it is between its first and
    its last day in the order of strings. *)
Definition in_period (year period : Z) (d : string) : bool :=
  String.leb (first_day year) d && String.leb d (last_day (period_end year period)).

(** The labels of all the gauges of a classification, in gauge order. *)
Definition gauge_colors (gauges_dct : gmap string (list string)) (g : gauge)
  : list string :=
  default [] (gauges_dct !! str g).

Definition node_colors (gauges_dct : gmap string (list string)) (gauges : list gauge)
  : list string :=
  flat_map (gauge_colors gauges_dct) gauges.

(** Every gauge of the list is a key of the classification. *)
Definition classifies (gauges_dct : gmap string (list string)) (gauges : list gauge)
  : Prop :=
  forall g, In g gauges -> is_Some (gauges_dct !! str g).

(** The two cells of every gauge, low then high, in gauge order: the row
    of the low/high grid for one classification. *)
Definition low_high_cells (gauges_dct : gmap string (list string))
    (gauges : list gauge) : list float :=
  flat_map (fun g => [float_of_int (count "yellow" (gauge_colors gauges_dct g));
                      float_of_int (count "red" (gauge_colors gauges_dct g))])
           gauges.

(** The column headers of the low/high grid. *)
Definition low_high_headers (gauges : list gauge) : list string :=
  flat_map (fun g => [str g +:+ " (low)"; str g +:+ " (high)"]) gauges.

(** ** Yearly and periodic aggregation *)

Section Aggregation.

Variables Graph GaugePairs RiverKms Component : Type.

(** [FloodWaveHandler.create_directed_graph(start_date, end_date,
    gauge_pairs, folder_name)]. *)
Variable create_directed_graph : string -> string -> GaugePairs -> string -> Graph.

(** [GraphAnalysis.calculate_all_velocities(river_kms, joined_graph)]. *)
Variable calculate_all_velocities : RiverKms -> Graph -> list float.

(** [AnalysisHandler.get_node_colors_in_given_period(gauges, folder_name,
    start_date, end_date)]: a dict from [str(gauge)] to color labels. *)
Variable get_node_colors_in_given_period :
  list gauge -> string -> string -> string -> gmap string (list string).

(** [nx.weakly_connected_components(graph)]. *)
Variable weakly_connected_components : Graph -> list Component.

Context {numpy : Numpy}.

(** *** [yearly_mean_moving_average] (lines 31-46) *)

Definition moving_average_step (river_kms : RiverKms) (gauge_pairs : GaugePairs)
    (folder_name : string) (length : Z) (mean_velocities : list float) (i : Z)
  : list float :=
  let graph :=
    create_directed_graph (str_int (i - length) +:+ "-01-01")
      (str_int i +:+ "-12-31") gauge_pairs folder_name in
  let velocities := calculate_all_velocities river_kms graph in
  let mean_velocity := np_mean velocities in
  mean_velocities ++ [mean_velocity].

Definition yearly_mean_moving_average (river_kms : RiverKms)
    (gauge_pairs : GaugePairs) (folder_name : string) (length : Z) : list float :=
  fold_left (moving_average_step river_kms gauge_pairs folder_name length)
            (range (1876 + length) 2020) [].

(** *** Color labels of all gauges (lines 86-88 and 246-248) *)

(** [for gauge in gauges: colors += gauges_dct[str(gauge)]]. *)
Fixpoint extend_colors (gauges_dct : gmap string (list string))
    (gauges : list gauge) (colors : list string) : result (list string) :=
  match gauges with
  | [] => Ok colors
  | g :: rest =>
      try! gauge_colors := lookup_key gauges_dct (str g) in
      extend_colors gauges_dct rest (colors ++ gauge_colors)
  end.

(** *** [get_statistics] (lines 59-116) *)

Record stats_lists : Type := {
  years : list Z;
  components_num : list Z;
  low : list Z;
  high : list Z;
  mins : list float;
  maxs : list float;
  means : list float;
  medians : list float;
  stds : list float
}.

Definition stats_empty : stats_lists :=
  {| years := []; components_num := []; low := []; high := [];
     mins := []; maxs := []; means := []; medians := []; stds := [] |}.

Definition statistics_step (river_kms : RiverKms) (gauges : list gauge)
    (gauge_pairs : GaugePairs) (folder_name : string)
    (acc : stats_lists) (i : Z) : result stats_lists :=
  let start_date := str_int i +:+ "-01-01" in
  let end_date := str_int i +:+ "-12-31" in
  let graph := create_directed_graph start_date end_date gauge_pairs folder_name in
  let gauges_dct :=
    get_node_colors_in_given_period gauges folder_name start_date end_date in
  try! node_colors := extend_colors gauges_dct gauges [] in
  let components := weakly_connected_components graph in
  let velocities := calculate_all_velocities river_kms graph in
  try! min_v := np_min velocities in
  try! max_v := np_max velocities in
  Ok {| years := years acc ++ [i];
        components_num := components_num acc ++ [Z.of_nat (length components)];
        low := low acc ++ [count "yellow" node_colors];
        high := high acc ++ [count "red" node_colors];
        mins := mins acc ++ [min_v];
        maxs := maxs acc ++ [max_v];
        means := means acc ++ [np_mean velocities];
        medians := medians acc ++ [np_median velocities];
        stds := stds acc ++ [np_std velocities] |}.

Definition statistics_table (acc : stats_lists) : list (string * list cell) :=
  [ ("Datum (ev)", map CInt (years acc));
    ("Arhullam (db)", map CInt (components_num acc));
    ("Kisviz (db)", map CInt (low acc));
    ("Nagyviz (db)", map CInt (high acc));
    ("Min. sebesseg (km/h)", map CFloat (mins acc));
    ("Max. sebesseg (km/h)", map CFloat (maxs acc));
    ("Atlagsebesseg (km/h)", map CFloat (means acc));
    ("Median sebesseg (km/h)", map CFloat (medians acc));
    ("Sebessegek szorasa", map CFloat (stds acc)) ].

Definition get_statistics (river_kms : RiverKms) (gauges : list gauge)
    (gauge_pairs : GaugePairs) (folder_name : string) : result DataFrame :=
  try! acc := for_each (statistics_step river_kms gauges gauge_pairs folder_name)
                       (range 1876 2020) stats_empty in
  of_dict (statistics_table acc) None.

(** *** [low_high_by_gauge_yearly] (lines 127-155) *)

(** Lines 139-146: the loop over the gauges with its counter [k]. *)
Fixpoint fill_year (gauges_dct : gmap string (list string)) (i : Z)
    (gauges : list gauge) (k : Z) (final_matrix : list (list float))
  : result (list (list float)) :=
  match gauges with
  | [] => Ok final_matrix
  | g :: rest =>
      try! gauge_colors := lookup_key gauges_dct (str g) in
      let k_yellow := count "yellow" gauge_colors in
      let k_red := count "red" gauge_colors in
      try! m1 := Np.setitem2 final_matrix (i - 1876) (2 * k - 2) (float_of_int k_yellow) in
      try! m2 := Np.setitem2 m1 (i - 1876) (2 * k - 1) (float_of_int k_red) in
      fill_year gauges_dct i rest (k + 1) m2
  end.

Definition low_high_step (gauges : list gauge) (folder_name : string)
    (acc : list Z * list (list float)) (i : Z)
  : result (list Z * list (list float)) :=
  let '(years, final_matrix) := acc in
  let start_date := str_int i +:+ "-01-01" in
  let end_date := str_int i +:+ "-12-31" in
  let gauges_dct :=
    get_node_colors_in_given_period gauges folder_name start_date end_date in
  try! m := fill_year gauges_dct i gauges 1 final_matrix in
  Ok (years ++ [i], m).

(** Lines 150-153. *)
Definition low_high_columns (gauges : list gauge) : list string :=
  fold_left (fun columns g => (columns ++ [str g +:+ " (low)"]) ++ [str g +:+ " (high)"])
            gauges [].

Definition low_high_by_gauge_yearly (gauges : list gauge) (folder_name : string)
  : result DataFrame :=
  try! acc := for_each (low_high_step gauges folder_name) (range 1876 2020)
                       ([], Np.zeros 144 28) in
  let '(years, final_matrix) := acc in
  of_matrix final_matrix (map LInt years) (low_high_columns gauges).

(** *** [red_ratio] (lines 228-256) *)

(** Lines 232-252: the loop over [years], left by [break] at the first
    period that would end after 2019. *)
Fixpoint red_ratio_loop (gauges : list gauge) (folder_name : string) (period : Z)
    (years : list Z) (indices : list string) (ratios : list float)
  : result (list string * list float) :=
  match years with
  | [] => Ok (indices, ratios)
  | year :: rest =>
      if year + period - 1 >? 2019 then Ok (indices, ratios)
      else
        let start_date := str_int year +:+ "-01-01" in
        let end_date := str_int (year + period - 1) +:+ "-12-31" in
        let indices := indices ++ [start_date +:+ "_" +:+ end_date] in
        let gauges_dct :=
          get_node_colors_in_given_period gauges folder_name start_date end_date in
        try! all_colors := extend_colors gauges_dct gauges [] in
        let reds := count "red" all_colors in
        try! ratio := truediv reds (Z.of_nat (length all_colors)) in
        red_ratio_loop gauges folder_name period rest indices (ratios ++ [ratio])
  end.

Definition red_ratio (gauges : list gauge) (folder_name : string) (period : Z)
  : result DataFrame :=
  try! years := Np.arange 1876 2020 period in
  try! acc := red_ratio_loop gauges folder_name period years [] [] in
  let '(indices, ratios) := acc in
  of_dict [("ratio", map CFloat ratios)] (Some (map LStr indices)).

(** *** The windows and rows the properties speak of *)

Definition year_graph (gauge_pairs : GaugePairs) (folder_name : string) (i : Z)
  : Graph :=
  create_directed_graph (first_day i) (last_day i) gauge_pairs folder_name.

Definition year_velocities (river_kms : RiverKms) (gauge_pairs : GaugePairs)
    (folder_name : string) (i : Z) : list float :=
  calculate_all_velocities river_kms (year_graph gauge_pairs folder_name i).

Definition year_classification (gauges : list gauge) (folder_name : string) (i : Z)
  : gmap string (list string) :=
  get_node_colors_in_given_period gauges folder_name (first_day i) (last_day i).

Definition period_classification (gauges : list gauge) (folder_name : string)
    (year period : Z) : gmap string (list string) :=
  get_node_colors_in_given_period gauges folder_name (first_day year)
    (last_day (period_end year period)).

(** The mean velocity of the window of [length] years that ends with
    year [i]. *)
Definition window_mean_velocity (river_kms : RiverKms) (gauge_pairs : GaugePairs)
    (folder_name : string) (length i : Z) : float :=
  np_mean (calculate_all_velocities river_kms
             (create_directed_graph (first_day (i - length)) (last_day i)
                gauge_pairs folder_name)).

(** A year of the statistics table can be computed: every gauge is
    classified and the velocities have a minimum and a maximum. *)
Definition year_computable (river_kms : RiverKms) (gauges : list gauge)
    (gauge_pairs : GaugePairs) (folder_name : string) (i : Z) : Prop :=
  classifies (year_classification gauges folder_name i) gauges
  /\ is_ok (np_min (year_velocities river_kms gauge_pairs folder_name i)) = true
  /\ is_ok (np_max (year_velocities river_kms gauge_pairs folder_name i)) = true.

(** The ratio of one period: red labels over all labels. *)
Definition period_ratio (gauges : list gauge) (folder_name : string)
    (period year : Z) : result float :=
  try! all_colors :=
    extend_colors (period_classification gauges folder_name year period) gauges [] in
  truediv (count "red" all_colors) (Z.of_nat (length all_colors)).

End Aggregation.

(** ** Slope statistics by vertex pair *)

(** The slope of a [[value, slope]] record: a float or a list of floats. *)
Inductive slope : Type :=
| SlopeFloat (x : float)
| SlopeList (xs : list float).

(** [sublist if isinstance(sublist, list) else [sublist]]. *)
Definition as_list (sublist : slope) : list float :=
  match sublist with
  | SlopeList xs => xs
  | SlopeFloat x => [x]
  end.

(** [[f(x) for x in l]] where [f] may raise. *)
Fixpoint map_result {A B : Type} (f : A -> result B) (l : list A) : result (list B) :=
  match l with
  | [] => Ok []
  | a :: l' =>
      try! b := f a in
      try! bs := map_result f l' in
      Ok (b :: bs)
  end.

Record slope_lists : Type := {
  slope_mins : list float;
  slope_maxs : list float;
  slope_means : list float;
  slope_medians : list float;
  slope_stds : list float;
  slope_indices : list string
}.

Definition slope_empty : slope_lists :=
  {| slope_mins := []; slope_maxs := []; slope_means := [];
     slope_medians := []; slope_stds := []; slope_indices := [] |}.

Section Slopes.

(** The first component of a [[value, slope]] record; never read. *)
Variable Value : Type.

(** The parsed [vertex_pairs.json]: vertex pair -> date -> record. *)
Definition vertex_pairs_json : Type :=
  list (string * list (string * (Value * slope))).

Context {numpy : Numpy}.

(** Lines 179-201: the loop over [years] for one vertex pair. *)
Fixpoint slopes_loop (vertex_pairs : vertex_pairs_json) (vtx_pair : string)
    (period : Z) (years : list Z) (acc : slope_lists) : result slope_lists :=
  match years with
  | [] => Ok acc
  | year :: rest =>
      if year + period - 1 >? 2019 then Ok acc
      else
        let start_date := str_int year +:+ "-01-01" in
        let end_date := str_int (year + period - 1) +:+ "-12-31" in
        try! pair_dates := getitem vertex_pairs vtx_pair in
        let current_dates := keys pair_dates in
        if forallb (fun j => String.ltb j start_date || String.ltb end_date j)
                   current_dates
        then slopes_loop vertex_pairs vtx_pair period rest acc
        else
          let indices := slope_indices acc ++ [start_date +:+ "_" +:+ end_date] in
          let valid_dates :=
            List.filter (fun x => String.leb start_date x && String.leb x end_date)
                        current_dates in
          try! valid_slopes :=
            map_result (fun valid_date =>
                          try! dates := getitem vertex_pairs vtx_pair in
                          try! record := getitem dates valid_date in
                          Ok (snd record))
                       valid_dates in
          let flattened_slopes := flat_map as_list valid_slopes in
          try! min_s := np_min flattened_slopes in
          try! max_s := np_max flattened_slopes in
          slopes_loop vertex_pairs vtx_pair period rest
            {| slope_mins := slope_mins acc ++ [min_s];
               slope_maxs := slope_maxs acc ++ [max_s];
               slope_means := slope_means acc ++ [np_mean flattened_slopes];
               slope_medians := slope_medians acc ++ [np_median flattened_slopes];
               slope_stds := slope_stds acc ++ [np_std flattened_slopes];
               slope_indices := indices |}
  end.

Definition slopes_table (acc : slope_lists) : list (string * list cell) :=
  [ ("Min. slope (km/h)", map CFloat (slope_mins acc));
    ("Max. slope (km/h)", map CFloat (slope_maxs acc));
    ("Mean", map CFloat (slope_means acc));
    ("Median", map CFloat (slope_medians acc));
    ("Standard deviation", map CFloat (slope_stds acc)) ].

(** Lines 172-211: the table of one vertex pair. *)
Definition slopes_of_pair (vertex_pairs : vertex_pairs_json) (period : Z)
    (years : list Z) (vtx_pair : string) : result DataFrame :=
  try! acc := slopes_loop vertex_pairs vtx_pair period years slope_empty in
  of_dict (slopes_table acc) (Some (map LStr (slope_indices acc))).

(** Lines 169-211: [dfs], one table per vertex pair. *)
Definition slope_tables (vertex_pairs : vertex_pairs_json) (period : Z)
  : result (list DataFrame) :=
  try! years := Np.arange 1876 2020 period in
  for_each (fun dfs vtx_pair =>
              try! df := slopes_of_pair vertex_pairs period years vtx_pair in
              Ok (dfs ++ [df]))
           (keys vertex_pairs) [].

(** *** The periods and pools the properties speak of *)

(** The slopes of all in-range dates of a pair, per-date lists
    flattened, in the order of the dates. *)
Definition period_pool (dates : list (string * (Value * slope))) (year period : Z)
  : list float :=
  flat_map as_list
    (map (fun item => snd (snd item))
         (List.filter (fun item => in_period year period (fst item)) dates)).

(** The complete periods in which the pair has a recorded date. *)
Definition periods_with_dates (dates : list (string * (Value * slope))) (period : Z)
  : list Z :=
  List.filter (fun year => existsb (in_period year period) (keys dates))
              (complete_periods period).

Record slope_row : Type := {
  row_min : float;
  row_max : float;
  row_mean : float;
  row_median : float;
  row_std : float
}.

(** The five statistics of a pool. *)
Definition pool_statistics (pool : list float) : result slope_row :=
  try! min_s := np_min pool in
  try! max_s := np_max pool in
  Ok {| row_min := min_s; row_max := max_s; row_mean := np_mean pool;
        row_median := np_median pool; row_std := np_std pool |}.

Definition add_rows (acc : slope_lists) (labels : list string) (rows : list slope_row)
  : slope_lists :=
  {| slope_mins := slope_mins acc ++ map row_min rows;
     slope_maxs := slope_maxs acc ++ map row_max rows;
     slope_means := slope_means acc ++ map row_mean rows;
     slope_medians := slope_medians acc ++ map row_median rows;
     slope_stds := slope_stds acc ++ map row_std rows;
     slope_indices := slope_indices acc ++ labels |}.

(** The table of a pair from its row labels and rows. *)
Definition slopes_frame (labels : list string) (rows : list slope_row) : DataFrame :=
  {| df_index := map LStr labels;
     df_columns :=
       [ ("Min. slope (km/h)", map CFloat (map row_min rows));
         ("Max. slope (km/h)", map CFloat (map row_max rows));
         ("Mean", map CFloat (map row_mean rows));
         ("Median", map CFloat (map row_median rows));
         ("Standard deviation", map CFloat (map row_std rows)) ] |}.

(** The rows of a pair: the statistics of the pool of every complete
    period in which the pair has a recorded date. *)
Definition period_rows (dates : list (string * (Value * slope))) (period : Z)
  : result (list slope_row) :=
  map_result (fun year => pool_statistics (period_pool dates year period))
             (periods_with_dates dates period).

(** *** Files

    The part of the outside world the function touches: the files that
    can be read, the handles that are open (with the path each one was
    opened on), and the workbooks written.  A computation maps a world
    to an outcome and the world it leaves behind, also when it raises. *)

Record world : Type := {
  files : gmap string (option vertex_pairs_json);
  handles : gmap nat string;
  next_handle : nat;
  workbooks : gmap string (list (string * DataFrame))
}.

Definition IO (A : Type) : Type := world -> result A * world.

Definition io_ret {A : Type} (a : A) : IO A := fun w => (Ok a, w).

Definition io_bind {A B : Type} (m : IO A) (k : A -> IO B) : IO B :=
  fun w =>
    match m w with
    | (Ok a, w') => k a w'
    | (Raise e, w') => (Raise e, w')
    end.

Definition io_lift {A : Type} (r : result A) : IO A := fun w => (r, w).

Notation "'do!' x := m 'in' k" := (io_bind m (fun x => k))
  (at level 10, x name, m at level 100, k at level 200).

Fixpoint io_for_each {B : Type} (body : B -> IO unit) (l : list B) : IO unit :=
  match l with
  | [] => io_ret tt
  | b :: l' => io_bind (body b) (fun _ => io_for_each body l')
  end.

Definition new_handle (path : string) (w : world) : nat * world :=
  (next_handle w,
   {| files := files w;
      handles := <[next_handle w := path]> (handles w);
      next_handle := S (next_handle w);
      workbooks := workbooks w |}).

Definition close_handle (h : nat) (w : world) : world :=
  {| files := files w;
     handles := delete h (handles w);
     next_handle := next_handle w;
     workbooks := workbooks w |}.

(** [open(path)]: a handle on an existing file. *)
Definition open_file (path : string) : IO nat :=
  fun w =>
    match files w !! path with
    | None => (Raise FileNotFoundError, w)
    | Some _ => let '(h, w') := new_handle path w in (Ok h, w')
    end.

(** [json.load(f)]: parses what the handle reads; the handle stays as
    it was. *)
Definition json_load (f : nat) : IO vertex_pairs_json :=
  fun w =>
    match handles w !! f with
    | None => (Raise ValueError, w)
    | Some path =>
        match files w !! path with
        | Some (Some v) => (Ok v, w)
        | Some None => (Raise JSONDecodeError, w)
        | None => (Raise FileNotFoundError, w)
        end
    end.

(** Whether a string can name a sheet of a workbook. *)
Variable sheet_name_ok : string -> bool.

(** [df.to_excel(writer, sheet_name=sheet_name)]. *)
Definition to_excel (writer : nat) (sheet_name : string) (df : DataFrame) : IO unit :=
  fun w =>
    match handles w !! writer with
    | None => (Raise ValueError, w)
    | Some path =>
        if sheet_name_ok sheet_name then
          (Ok tt,
           {| files := files w;
              handles := handles w;
              next_handle := next_handle w;
              workbooks :=
                <[path := default [] (workbooks w !! path) ++ [(sheet_name, df)]]>
                  (workbooks w) |})
        else (Raise ValueError, w)
    end.

(** [with pd.ExcelWriter(path) as writer: body]: the writer is closed
    when the block is left, by its end or by an exception.  The sheets
    are those of the real writer when no workbook exists under the path
    and at least one sheet is written; pandas replaces an existing file
    and refuses to save a workbook without sheets. *)
Definition with_excel_writer {A : Type} (path : string) (body : nat -> IO A) : IO A :=
  fun w =>
    let '(writer, w1) := new_handle path w in
    let '(r, w2) := body writer w1 in
    (r, close_handle writer w2).

(** [PROJECT_PATH] and [os.path.join]. *)
Variable PROJECT_PATH : string.
Variable os_path_join : list string -> string.

Definition vertex_pairs_path (folder_name : string) : string :=
  os_path_join [PROJECT_PATH; folder_name; "find_edges"; "vertex_pairs.json"].

Definition slopes_workbook_path (period : Z) : string :=
  str_int period +:+ "-year_slopes_by_vertex_pairs.xlsx".

(** Lines 166-216. *)
Definition get_slopes_by_vertex_pairs (folder_name : string) (period : Z) : IO unit :=
  do! f := open_file (vertex_pairs_path folder_name) in
  do! vertex_pairs := json_load f in
  do! dfs := io_lift (slope_tables vertex_pairs period) in
  with_excel_writer (slopes_workbook_path period) (fun writer =>
    io_for_each (fun '(i, df) =>
                   do! sheet_name := io_lift (list_getitem (keys vertex_pairs) i) in
                   to_excel writer sheet_name df)
                (imap (fun i df => (i, df)) dfs)).

End Slopes.

(** An ISO date [YYYY-MM-DD] of year [y]. *)
Definition iso_date_in_year (y : Z) (d : string) : Prop :=
  exists m1 m2 d1 d2 : ascii,
    d = str_int y +:+ "-" +:+ String m1 (String m2 ("-" +:+ String d1 (String d2 ""))).

(** The specification's third filter rule, read literally. *)
Definition retains_target_year_branches : Prop :=
  forall (Graph GaugePairs : Type)
         (create_directed_graph : string -> string -> GaugePairs -> string -> Graph)
         (get_branching : Graph -> list branch)
         (y : Z) (gp : GaugePairs) (folder : string) (b : branch),
    1876 <= y <= 2019 ->
    In b (window_branches Graph GaugePairs create_directed_graph get_branching y gp folder) ->
    (exists n, In n b /\ iso_date_in_year y (snd n)) ->
    In b (get_flood_waves_yearly Graph GaugePairs create_directed_graph get_branching y gp folder).

(** ** Checks decided by evaluation *)

Definition four_chars_no_hyphen (s : string) : bool :=
  match s with
  | String a (String b (String c (String d EmptyString))) =>
      negb (Ascii.eqb a "-") && negb (Ascii.eqb b "-")
      && negb (Ascii.eqb c "-") && negb (Ascii.eqb d "-")
  | _ => false
  end.

(** The labels of [y] and [y + 1] are four characters without a hyphen
    and differ. *)
Definition year_label_check (y : Z) : bool :=
  four_chars_no_hyphen (str_int y)
  && four_chars_no_hyphen (str_int (y + 1))
  && negb (String.eqb (str_int (y + 1)) (str_int y)).

(** ** Concrete inputs *)

(** A graph builder and a branch decomposition to run the year filter
    on: whatever the window, the decomposition is the given one. *)
Definition fixed_graph : string -> string -> unit -> string -> unit :=
  fun _ _ _ _ => tt.

Definition march_wave : branch := [(GInt 1, "1900-03-01"); (GInt 2, "1900-03-02")].

Definition new_year_wave : branch := [(GInt 1, "1899-12-31"); (GInt 2, "1900-01-01")].

(** Collaborators that answer the same for every window: two edges with
    velocities 1.5 and 2.5, two components, and one gauge "1" with the
    labels yellow, red, yellow. *)
Definition sample_velocities : unit -> unit -> list float :=
  fun _ _ => [1.5%float; 2.5%float].

Definition sample_components : unit -> list unit := fun _ => [tt; tt].

Definition sample_colors : list gauge -> string -> string -> string
                           -> gmap string (list string) :=
  fun _ _ _ _ => {[ "1" := ["yellow"; "red"; "yellow"] ]}.

(** A classification in which gauge "1" has no label at all, and ten
    labels of which three are red. *)
Definition empty_colors : list gauge -> string -> string -> string
                          -> gmap string (list string) :=
  fun _ _ _ _ => {[ "1" := [] ]}.


(** The specification's grid shape, read literally: a grid of 144 rows
    and two columns per gauge for every gauge list (whose gauges are all
    classified). *)
Definition low_high_grid_for_every_gauge_list : Prop :=
  forall (colors : list gauge -> string -> string -> string
                   -> gmap string (list string))
         (gauges : list gauge) (folder : string),
    (forall i, classifies (year_classification colors gauges folder i) gauges) ->
    exists df,
      low_high_by_gauge_yearly colors gauges folder = Ok df
      /\ nrows df = 144%nat
      /\ ncols df = (2 * length gauges)%nat.

(** Fourteen gauges, all classified by [sample_colors]. *)
Definition fourteen_gauges : list gauge := replicate 14 (GInt 1).

(** A parsed [vertex_pairs.json] with one pair: a scalar slope in 1876
    and a list of slopes in 1880. *)
Definition sample_vertex_pairs : vertex_pairs_json unit :=
  [("1514-1515",
    [("1876-06-01", (tt, SlopeFloat 5%float));
     ("1880-01-15", (tt, SlopeList [1%float; 2%float; 4%float]))])].

(** The table of a pair whose only period with a date has the single
    slope 5.0. *)
Definition single_slope_table : DataFrame :=
  {| df_index := [LStr "1876-01-01_1876-12-31"];
     df_columns :=
       [ ("Min. slope (km/h)", [CFloat 5%float]);
         ("Max. slope (km/h)", [CFloat 5%float]);
         ("Mean", [CFloat 5%float]);
         ("Median", [CFloat 5%float]);
         ("Standard deviation", [CFloat 0%float]) ] |}.

(** A world with the sample JSON file under its path, no open handle
    and no workbook yet. *)
Definition sample_path : list string -> string :=
  fun _ => "data/find_edges/vertex_pairs.json".

Definition sample_world : world unit :=
  {| files := {[ "data/find_edges/vertex_pairs.json" := Some sample_vertex_pairs ]};
     handles := ∅;
     next_handle := 3;
     workbooks := ∅ |}.

(** ** Vocabulary of the further properties *)

(** Every node date of the branch is an ISO date of the target year or
    of one of its two neighbours, as in a graph built over the widened
    window of [y]. *)
Definition dated_in_window (y : Z) (b : branch) : Prop :=
  Forall (fun n => iso_date_in_year (y - 1) (snd n)
                   \/ iso_date_in_year y (snd n)
                   \/ iso_date_in_year (y + 1) (snd n)) b.

(** The sum of a list of integers. *)
Definition sum_Z (l : list Z) : Z := fold_right Z.add 0 l.

(** A world whose JSON file cannot be parsed. *)
Definition malformed_world : world unit :=
  {| files := {[ "data/find_edges/vertex_pairs.json" := None ]};
     handles := ∅;
     next_handle := 3;
     workbooks := ∅ |}.

(** The table of a pair whose only period with dates pools the slopes
    1.0, 2.0, 4.0 (one date with a list) and 5.0 (one date with a
    scalar): min 1, max 5, mean 3, median 3, std sqrt(2.5). *)
Definition mixed_slope_table : DataFrame :=
  {| df_index := [LStr "1876-01-01_1876-12-31"];
     df_columns :=
       [ ("Min. slope (km/h)", [CFloat 1%float]);
         ("Max. slope (km/h)", [CFloat 5%float]);
         ("Mean", [CFloat 3%float]);
         ("Median", [CFloat 3%float]);
         ("Standard deviation", [CFloat (PrimFloat.sqrt 2.5%float)]) ] |}.

(** * Properties *)

(** ** Python values and control *)

Lemma is_ok_true {A : Type} (m : result A) : is_ok m = true -> exists a, m = Ok a.
Proof. destruct m; simpl; [eauto | discriminate]. Qed.

Section PyFacts.

Context {A B : Type}.

Lemma bind_ok_inv (m : result A) (k : A -> result B) (b : B) :
  bind m k = Ok b -> exists a, m = Ok a /\ k a = Ok b.
Proof. destruct m as [a|e]; simpl; [eauto | discriminate]. Qed.


Lemma map_result_ok (f : A -> result B) (l : list A) (bs : list B) :
  map_result f l = Ok bs <-> map f l = map Ok bs.
Proof.
  revert bs. induction l as [|a l IH]; intros bs; simpl.
  - split; [intros [= <-]; reflexivity |].
    destruct bs; [reflexivity | discriminate].
  - destruct (f a) as [b|e] eqn:Hfa; simpl.
    + destruct (map_result f l) as [bs'|e] eqn:Hl; simpl.
      * split.
        -- intros [= <-]. simpl. f_equal. by apply IH.
        -- destruct bs as [|b0 bs0]; [discriminate |]. simpl.
           intros [= -> Hm]. apply IH in Hm. congruence.
      * split; [discriminate |].
        destruct bs as [|b0 bs0]; [discriminate |]. simpl.
        intros [= -> Hm]. apply IH in Hm. discriminate.
    + split; [discriminate |].
      destruct bs; simpl; [discriminate | intros [= ? ?]].
Qed.

Lemma map_result_total (f : A -> result B) (l : list A) :
  (forall a, In a l -> is_ok (f a) = true) -> exists bs, map_result f l = Ok bs.
Proof.
  induction l as [|a l IH]; intros H; simpl; [eauto |].
  destruct (is_ok_true (f a)) as [b ->]; [apply H; left; reflexivity |].
  destruct IH as [bs ->]; [intros; apply H; right; assumption |].
  simpl. eauto.
Qed.



End PyFacts.

Lemma in_range (a b x : Z) : In x (range a b) <-> a <= x < b.
Proof.
  unfold range. rewrite <- list_elem_of_In, elem_of_seqZ. lia.
Qed.

Lemma length_range (a b : Z) : length (range a b) = Z.to_nat (b - a).
Proof. unfold range. apply length_seqZ. Qed.

Lemma lookup_range (a b : Z) (k : nat) :
  Z.of_nat k < b - a -> range a b !! k = Some (a + Z.of_nat k).
Proof. intros H. unfold range. apply lookup_seqZ. lia. Qed.

Lemma forallb_range (p : Z -> bool) (a b : Z) :
  forallb p (range a b) = true -> forall x, a <= x < b -> p x = true.
Proof.
  intros H x Hx. rewrite forallb_forall in H. apply H, in_range, Hx.
Qed.

Lemma count_yellow_red (l : list string) :
  count "yellow" l + count "red" l <= Z.of_nat (length l).
Proof.
  induction l as [|y l IH]; simpl length; simpl count; [lia |].
  destruct (String.eqb_spec y "yellow") as [-> | Hy]; simpl.
  - lia.
  - destruct (String.eqb y "red"); lia.
Qed.

(** ** Year labels inside date strings *)

Lemma year_labels (y : Z) : 1876 <= y <= 2019 -> year_label_check y = true.
Proof.
  assert (H : forallb year_label_check (range 1876 2020) = true)
    by (vm_compute; reflexivity).
  intros Hy. apply (forallb_range _ _ _ H). lia.
Qed.

Lemma four_chars_no_hyphen_inv (s : string) :
  four_chars_no_hyphen s = true ->
  exists a b c d,
    s = String a (String b (String c (String d EmptyString)))
    /\ Ascii.eqb a "-" = false /\ Ascii.eqb b "-" = false
    /\ Ascii.eqb c "-" = false /\ Ascii.eqb d "-" = false.
Proof.
  destruct s as [|a [|b [|c [|d [|? ?]]]]]; simpl; try discriminate.
  rewrite !andb_true_iff, !negb_true_iff. intros [[[? ?] ?] ?].
  exists a, b, c, d. auto.
Qed.

(** A hyphen-free word of four characters occurs in [YYYY-MM-DD] only as
    the year. *)
Lemma contains_in_iso_date (a b c d y0 y1 y2 y3 m1 m2 d1 d2 : ascii) :
  Ascii.eqb a "-" = false -> Ascii.eqb b "-" = false ->
  Ascii.eqb c "-" = false -> Ascii.eqb d "-" = false ->
  contains (String a (String b (String c (String d EmptyString))))
    (String y0 (String y1 (String y2 (String y3 (String "-"
      (String m1 (String m2 (String "-" (String d1 (String d2 EmptyString))))))))))
  = true ->
  String a (String b (String c (String d EmptyString)))
  = String y0 (String y1 (String y2 (String y3 EmptyString))).
Proof.
  intros Ha Hb Hc Hd. simpl.
  rewrite Ha, Hb, Hc, Hd. simpl.
  rewrite ?andb_false_r, ?orb_false_r. simpl.
  rewrite ?andb_false_r, ?orb_false_r, ?andb_true_r.
  rewrite !andb_true_iff, !Ascii.eqb_eq.
  intros (-> & -> & -> & ->). reflexivity.
Qed.

Lemma iso_date_not_next_year (y : Z) (d : string) :
  1876 <= y <= 2019 -> iso_date_in_year y d -> contains (str_int (y + 1)) d = false.
Proof.
  intros Hy (m1 & m2 & d1 & d2 & ->).
  pose proof (year_labels y Hy) as Hc. unfold year_label_check in Hc.
  rewrite !andb_true_iff, negb_true_iff in Hc. destruct Hc as [[Hy0 Hy1] Hne].
  apply four_chars_no_hyphen_inv in Hy0 as (y0 & y1 & y2 & y3 & Ey & _).
  apply four_chars_no_hyphen_inv in Hy1 as (a & b & c & e & En & Ha & Hb & Hc & He).
  rewrite Ey, En in *. simpl String.append.
  destruct (contains _ _) eqn:Hcont; [| reflexivity].
  apply contains_in_iso_date in Hcont; try assumption.
  rewrite Hcont, String.eqb_refl in Hne. discriminate.
Qed.

(** ** Flood waves of a single year *)

Section FloodWavesFacts.

Variables Graph GaugePairs : Type.
Variable create_directed_graph : string -> string -> GaugePairs -> string -> Graph.
Variable get_branching : Graph -> list branch.

Local Abbreviation flood_waves :=
  (get_flood_waves_yearly Graph GaugePairs create_directed_graph get_branching).
Local Abbreviation branches_of :=
  (window_branches Graph GaugePairs create_directed_graph get_branching).

Lemma clean_branches_filter (year : Z) (branches cleaned : list branch) :
  clean_branches year branches cleaned
  = cleaned ++ List.filter (starts_in_year year) branches.
Proof.
  revert cleaned. induction branches as [|b rest IH]; intros cleaned; simpl.
  - by rewrite app_nil_r.
  - destruct (starts_in_year year b); rewrite IH; [| reflexivity].
    by rewrite <- app_assoc.
Qed.

Lemma get_flood_waves_yearly_filter (year : Z) (gp : GaugePairs) (folder : string) :
  flood_waves year gp folder
  = List.filter (starts_in_year year) (branches_of year gp folder).
Proof.
  unfold get_flood_waves_yearly, window_branches.
  destruct (flood_wave_window year) as [start_date end_date]. simpl.
  apply clean_branches_filter.
Qed.

Lemma starts_in_year_true (year : Z) (b : branch) :
  starts_in_year year b = true <->
  Forall (fun n => contains (str_int (year - 1)) (snd n) = false) b
  /\ Exists (fun n => contains (str_int (year + 1)) (snd n) = false) b.
Proof.
  unfold starts_in_year. rewrite andb_true_iff, !negb_true_iff.
  rewrite <- not_true_iff_false, <- (not_true_iff_false (forallb _ _)).
  rewrite existsb_exists, forallb_forall.
  rewrite List.Forall_forall, List.Exists_exists. split.
  - intros [Hprev Hnext]. split.
    + intros n Hn. apply not_true_iff_false. intros Hc.
      apply Hprev. exists (snd n). split; [by apply in_map | exact Hc].
    + induction b as [|n b IH].
      * exfalso. apply Hnext. intros ? [].
      * destruct (contains (str_int (year + 1)) (snd n)) eqn:Hc.
        -- destruct IH as (n' & Hin & Hn').
           ++ intros (d & Hd & Hcd). apply Hprev. exists d. split; [right |]; done.
           ++ intros Hall. apply Hnext. intros d [<- | Hd]; [exact Hc | by apply Hall].
           ++ exists n'. split; [right |]; done.
        -- exists n. split; [left |]; done.
  - intros [Hprev (n & Hin & Hn)]. split.
    + intros (d & Hd & Hcd). apply in_map_iff in Hd as (n' & <- & Hin').
      rewrite (Hprev n' Hin') in Hcd. discriminate.
    + intros Hall. rewrite (Hall (snd n)) in Hn; [discriminate | by apply in_map].
Qed.

(** C9: the widened window is [year-01-01, (year+1)-02-01] for 1876,
    [(year-1)-11-30, year-12-31] for 2019 and
    [(year-1)-11-30, (year+1)-02-01] for every other year, and the branch
    decomposition the function filters is the one of the graph built
    over that window. *)
Theorem flood_wave_window_spec (gp : GaugePairs) (folder : string) :
  flood_wave_window 1876 = ("1876-01-01", "1877-02-01")
  /\ flood_wave_window 2019 = ("2018-11-30", "2019-12-31")
  /\ (forall year : Z, year <> 1876 -> year <> 2019 ->
        flood_wave_window year
        = (str_int (year - 1) +:+ "-11-30", str_int (year + 1) +:+ "-02-01"))
  /\ (forall year : Z,
        flood_waves year gp folder
        = List.filter (starts_in_year year)
            (get_branching
               (create_directed_graph (fst (flood_wave_window year))
                  (snd (flood_wave_window year)) gp folder))).
Proof.
  repeat split.
  - intros year H1 H2. unfold flood_wave_window.
    destruct (Z.eqb_spec year 1876); [contradiction |].
    destruct (Z.eqb_spec year 2019); [contradiction | reflexivity].
  - intros year. apply get_flood_waves_yearly_filter.
Qed.

(** C1 (amended): for every year of the dataset the function returns, in
    order, exactly the branches of the widened window that pass the year
    filter; a branch whose every node date contains the following year's
    label is excluded; a branch with a node date containing the previous
    year's label is excluded; a branch with an ISO date of the target
    year and no node date containing the previous year's label is
    retained. *)
Theorem flood_waves_year_filter (y : Z) (gp : GaugePairs) (folder : string) :
  1876 <= y <= 2019 ->
  flood_waves y gp folder
  = List.filter (starts_in_year y) (branches_of y gp folder)
  /\ (forall b, In b (branches_of y gp folder) ->
        Forall (fun n => contains (str_int (y + 1)) (snd n) = true) b ->
        ~ In b (flood_waves y gp folder))
  /\ (forall b, In b (branches_of y gp folder) ->
        Exists (fun n => contains (str_int (y - 1)) (snd n) = true) b ->
        ~ In b (flood_waves y gp folder))
  /\ (forall b, In b (branches_of y gp folder) ->
        Exists (fun n => iso_date_in_year y (snd n)) b ->
        Forall (fun n => contains (str_int (y - 1)) (snd n) = false) b ->
        In b (flood_waves y gp folder)).
Proof.
  intros Hy. rewrite get_flood_waves_yearly_filter.
  split; [reflexivity |]. repeat split.
  - intros b _ Hall Hin. apply filter_In in Hin as [_ Hk].
    apply starts_in_year_true in Hk as [_ Hex].
    apply List.Exists_exists in Hex as (n & Hn & Hc).
    rewrite List.Forall_forall in Hall. rewrite (Hall n Hn) in Hc. discriminate.
  - intros b _ Hex Hin. apply filter_In in Hin as [_ Hk].
    apply starts_in_year_true in Hk as [Hall _].
    apply List.Exists_exists in Hex as (n & Hn & Hc).
    rewrite List.Forall_forall in Hall. rewrite (Hall n Hn) in Hc. discriminate.
  - intros b Hb Hex Hall. apply filter_In. split; [exact Hb |].
    apply starts_in_year_true. split; [exact Hall |].
    apply List.Exists_exists in Hex as (n & Hn & Hiso).
    apply List.Exists_exists. exists n. split; [exact Hn |].
    by apply iso_date_not_next_year.
Qed.

End FloodWavesFacts.

Lemma flood_wave_window_spec_witness :
  flood_wave_window 1900 = ("1899-11-30", "1901-02-01").
Proof.
  apply (flood_wave_window_spec unit unit fixed_graph (fun _ => [march_wave]) tt "data");
    discriminate.
Defined.

Lemma flood_waves_year_filter_witness :
  In march_wave
     (get_flood_waves_yearly unit unit fixed_graph (fun _ => [march_wave]) 1900 tt "data").
Proof.
  apply (flood_waves_year_filter unit unit fixed_graph (fun _ => [march_wave])
           1900 tt "data"); [lia | left; reflexivity | |].
  - apply Exists_cons_hd. exists "0"%char, "3"%char, "0"%char, "1"%char. reflexivity.
  - repeat constructor.
Defined.

(** C1, as stated: a branch with a node date in the target year that
    began in the previous year is dropped, so the third rule does not
    hold of every branch. *)
Lemma flood_waves_target_year_counterexample : ~ retains_target_year_branches.
Proof.
  intros H.
  specialize (H unit unit fixed_graph (fun _ => [new_year_wave]) 1900 tt "data"
                new_year_wave).
  assert (Hin : In new_year_wave []); [| destruct Hin].
  apply H; [lia | left; reflexivity |].
  exists (GInt 2, "1900-01-01"). split; [right; left; reflexivity |].
  exists "0"%char, "1"%char, "0"%char, "1"%char. reflexivity.
Qed.

(** ** Loops that append *)

Lemma fold_left_append_map {A B : Type} (body : list B -> A -> list B) (f : A -> B)
    (l : list A) (acc : list B) :
  (forall acc a, body acc a = acc ++ [f a]) ->
  fold_left body l acc = acc ++ map f l.
Proof.
  intros Hbody. revert acc. induction l as [|a l IH]; intros acc; simpl.
  - by rewrite app_nil_r.
  - by rewrite IH, Hbody, <- app_assoc.
Qed.

Lemma lookup_map_ok {A B : Type} (f : A -> result B) (l : list A) (bs : list B)
    (k : nat) (a : A) :
  map Ok bs = map f l -> l !! k = Some a ->
  exists b, bs !! k = Some b /\ f a = Ok b.
Proof.
  intros Hm Ha.
  assert (H : map Ok bs !! k = Some (f a)).
  { rewrite Hm. change (map f l) with (f <$> l). by rewrite list_lookup_fmap, Ha. }
  change (map Ok bs) with (Ok <$> bs) in H. rewrite list_lookup_fmap in H.
  destruct (bs !! k) as [b|]; simpl in H; [| discriminate].
  injection H as H. eauto.
Qed.

Lemma lookup_map {A B : Type} (f : A -> B) (l : list A) (k : nat) (a : A) :
  l !! k = Some a -> map f l !! k = Some (f a).
Proof.
  intros Ha. change (map f l) with (f <$> l). by rewrite list_lookup_fmap, Ha.
Qed.

Lemma length_map_ok {A B : Type} (f : A -> result B) (l : list A) (bs : list B) :
  map Ok bs = map f l -> length bs = length l.
Proof. intros H. apply (f_equal length) in H. by rewrite !length_map in H. Qed.

(** ** Color labels of all gauges *)

Lemma extend_colors_ok (dct : gmap string (list string)) (gauges : list gauge)
    (colors all_colors : list string) :
  extend_colors dct gauges colors = Ok all_colors ->
  all_colors = colors ++ node_colors dct gauges /\ classifies dct gauges.
Proof.
  revert colors. induction gauges as [|g rest IH]; intros colors; simpl.
  - intros [= <-]. split; [by rewrite app_nil_r | intros ? []].
  - unfold lookup_key, gauge_colors.
    destruct (dct !! str g) as [cs|] eqn:Hg; simpl; [| discriminate].
    intros H. apply IH in H as [-> Hc]. split.
    + by rewrite <- app_assoc.
    + intros g' [<- | Hin]; [rewrite Hg; eauto | by apply Hc].
Qed.

Lemma extend_colors_classified (dct : gmap string (list string))
    (gauges : list gauge) (colors : list string) :
  classifies dct gauges ->
  extend_colors dct gauges colors = Ok (colors ++ node_colors dct gauges).
Proof.
  revert colors. induction gauges as [|g rest IH]; intros colors Hc; simpl.
  - by rewrite app_nil_r.
  - destruct (Hc g) as [cs Hg]; [left; reflexivity |].
    unfold lookup_key, gauge_colors. rewrite Hg. simpl.
    rewrite IH by (intros g' Hin; apply Hc; right; exact Hin).
    by rewrite <- app_assoc.
Qed.

(** ** Periods *)

(** For a period length of at least one year, [np.arange(1876, 2020,
    period)] lists the complete periods, followed by at most a start
    whose period would end after 2019. *)
Lemma arange_periods (period : Z) :
  1 <= period ->
  exists rest,
    Np.arange 1876 2020 period = Ok (complete_periods period ++ rest)
    /\ Forall (fun year => year + period - 1 <= 2019) (complete_periods period)
    /\ Forall (fun year => year + period - 1 > 2019) rest.
Proof.
  intros HP. unfold Np.arange, complete_periods.
  destruct (Z.eqb_spec period 0) as [? | _]; [lia |].
  set (q := 144 / period). set (n := - ((1876 - 2020) / period)).
  assert (Hq : period * q <= 144 < period * (q + 1)).
  { unfold q. pose proof (Z.div_mod 144 period ltac:(lia)).
    pose proof (Z.mod_pos_bound 144 period ltac:(lia)). lia. }
  assert (Hn : 0 <= q <= n).
  { unfold n. pose proof (Z.div_mod (1876 - 2020) period ltac:(lia)).
    pose proof (Z.mod_pos_bound (1876 - 2020) period ltac:(lia)).
    split; [unfold q; apply Z.div_pos; lia | nia]. }
  exists (map (fun k => 1876 + k * period) (seqZ q (n - q))).
  split; [| split].
  - rewrite <- map_app. do 2 f_equal.
    replace n with (q + (n - q)) at 1 by lia.
    rewrite seqZ_app by lia. reflexivity.
  - apply List.Forall_forall. intros year Hin.
    apply in_map_iff in Hin as (k & <- & Hk).
    apply list_elem_of_In, elem_of_seqZ in Hk. nia.
  - apply List.Forall_forall. intros year Hin.
    apply in_map_iff in Hin as (k & <- & Hk).
    apply list_elem_of_In, elem_of_seqZ in Hk. nia.
Qed.

Lemma in_complete_periods (period year : Z) :
  In year (complete_periods period) <->
  exists k, 0 <= k < 144 / period /\ year = 1876 + k * period.
Proof.
  unfold complete_periods. rewrite in_map_iff. split.
  - intros (k & <- & Hk). exists k.
    apply list_elem_of_In, elem_of_seqZ in Hk. split; [lia | reflexivity].
  - intros (k & Hk & ->). exists k. split; [reflexivity |].
    apply list_elem_of_In, elem_of_seqZ. lia.
Qed.



(** ** Yearly aggregation *)

Section AggregationFacts.

Variables Graph GaugePairs RiverKms Component : Type.
Variable create_directed_graph : string -> string -> GaugePairs -> string -> Graph.
Variable calculate_all_velocities : RiverKms -> Graph -> list float.
Variable get_node_colors_in_given_period :
  list gauge -> string -> string -> string -> gmap string (list string).
Variable weakly_connected_components : Graph -> list Component.
Context {numpy : Numpy}.

Local Abbreviation moving_average :=
  (yearly_mean_moving_average Graph GaugePairs RiverKms create_directed_graph
     calculate_all_velocities).
Local Abbreviation window_mean :=
  (window_mean_velocity Graph GaugePairs RiverKms create_directed_graph
     calculate_all_velocities).
Local Abbreviation graph_of := (year_graph Graph GaugePairs create_directed_graph).
Local Abbreviation velocities_of :=
  (year_velocities Graph GaugePairs RiverKms create_directed_graph
     calculate_all_velocities).
Local Abbreviation colors_of := (year_classification get_node_colors_in_given_period).
Local Abbreviation step :=
  (statistics_step Graph GaugePairs RiverKms Component create_directed_graph
     calculate_all_velocities get_node_colors_in_given_period
     weakly_connected_components).
Local Abbreviation statistics :=
  (get_statistics Graph GaugePairs RiverKms Component create_directed_graph
     calculate_all_velocities get_node_colors_in_given_period
     weakly_connected_components).
Local Abbreviation computable :=
  (year_computable Graph GaugePairs RiverKms create_directed_graph
     calculate_all_velocities get_node_colors_in_given_period).

(** C5: for a window length L with 1876+L <= 2019 the moving average has
    2020-(1876+L) elements, in the order of the ending years
    1876+L..2019, and the element of ending year i is the mean of the
    edge velocities of the graph built over [(i-L)-01-01, i-12-31]. *)
Theorem moving_average_spec (river_kms : RiverKms) (gp : GaugePairs)
    (folder : string) (L : Z) :
  1876 + L <= 2019 ->
  moving_average river_kms gp folder L
  = map (window_mean river_kms gp folder L) (range (1876 + L) 2020)
  /\ Z.of_nat (length (moving_average river_kms gp folder L)) = 2020 - (1876 + L)
  /\ (forall i : Z, 1876 + L <= i <= 2019 ->
        moving_average river_kms gp folder L !! Z.to_nat (i - (1876 + L))
        = Some (np_mean
                  (calculate_all_velocities river_kms
                     (create_directed_graph (str_int (i - L) +:+ "-01-01")
                        (str_int i +:+ "-12-31") gp folder)))).
Proof.
  intros HL.
  assert (E : moving_average river_kms gp folder L
              = map (window_mean river_kms gp folder L) (range (1876 + L) 2020)).
  { unfold yearly_mean_moving_average.
    by rewrite (fold_left_append_map _ (window_mean river_kms gp folder L)). }
  split; [exact E |]. split.
  - rewrite E, length_map, length_range. lia.
  - intros i Hi. rewrite E.
    erewrite lookup_map; [reflexivity |].
    rewrite lookup_range by lia. f_equal. lia.
Qed.

(** *** The yearly statistics table *)

Lemma statistics_step_ok (rk : RiverKms) (g : list gauge) (gp : GaugePairs)
    (f : string) (acc acc' : stats_lists) (i : Z) :
  step rk g gp f acc i = Ok acc' ->
  classifies (colors_of g f i) g
  /\ years acc' = years acc ++ [i]
  /\ components_num acc'
     = components_num acc
       ++ [Z.of_nat (length (weakly_connected_components (graph_of gp f i)))]
  /\ low acc' = low acc ++ [count "yellow" (node_colors (colors_of g f i) g)]
  /\ high acc' = high acc ++ [count "red" (node_colors (colors_of g f i) g)]
  /\ map Ok (mins acc') = map Ok (mins acc) ++ [np_min (velocities_of rk gp f i)]
  /\ map Ok (maxs acc') = map Ok (maxs acc) ++ [np_max (velocities_of rk gp f i)]
  /\ means acc' = means acc ++ [np_mean (velocities_of rk gp f i)]
  /\ medians acc' = medians acc ++ [np_median (velocities_of rk gp f i)]
  /\ stds acc' = stds acc ++ [np_std (velocities_of rk gp f i)].
Proof.
  unfold statistics_step. intros H.
  apply bind_ok_inv in H as (c & Hc & H).
  apply extend_colors_ok in Hc as [-> Hcl]. simpl in H.
  apply bind_ok_inv in H as (mn & Hmn & H).
  apply bind_ok_inv in H as (mx & Hmx & H).
  injection H as <-. simpl.
  unfold year_velocities, year_graph, first_day, last_day.
  rewrite Hmn, Hmx, !map_app. simpl. repeat split; try reflexivity. exact Hcl.
Qed.

Lemma statistics_step_total (rk : RiverKms) (g : list gauge) (gp : GaugePairs)
    (f : string) (acc : stats_lists) (i : Z) :
  computable rk g gp f i -> exists acc', step rk g gp f acc i = Ok acc'.
Proof.
  intros (Hcl & Hmin & Hmax). unfold statistics_step.
  unfold year_classification, first_day, last_day in Hcl.
  rewrite (extend_colors_classified _ _ _ Hcl). simpl.
  apply is_ok_true in Hmin as [mn Hmn]. apply is_ok_true in Hmax as [mx Hmx].
  unfold year_velocities, year_graph, first_day, last_day in Hmn, Hmx.
  rewrite Hmn, Hmx. simpl. eauto.
Qed.

Lemma statistics_loop (rk : RiverKms) (g : list gauge) (gp : GaugePairs)
    (f : string) (l : list Z) (acc acc' : stats_lists) :
  for_each (step rk g gp f) l acc = Ok acc' ->
  years acc' = years acc ++ l
  /\ components_num acc'
     = components_num acc
       ++ map (fun i => Z.of_nat (length (weakly_connected_components (graph_of gp f i)))) l
  /\ low acc'
     = low acc ++ map (fun i => count "yellow" (node_colors (colors_of g f i) g)) l
  /\ high acc'
     = high acc ++ map (fun i => count "red" (node_colors (colors_of g f i) g)) l
  /\ map Ok (mins acc')
     = map Ok (mins acc) ++ map (fun i => np_min (velocities_of rk gp f i)) l
  /\ map Ok (maxs acc')
     = map Ok (maxs acc) ++ map (fun i => np_max (velocities_of rk gp f i)) l
  /\ means acc' = means acc ++ map (fun i => np_mean (velocities_of rk gp f i)) l
  /\ medians acc' = medians acc ++ map (fun i => np_median (velocities_of rk gp f i)) l
  /\ stds acc' = stds acc ++ map (fun i => np_std (velocities_of rk gp f i)) l.
Proof.
  revert acc. induction l as [|i l IH]; intros acc; simpl.
  - intros [= <-]. rewrite !app_nil_r. repeat split.
  - intros H. apply bind_ok_inv in H as (acc1 & H1 & H).
    apply statistics_step_ok in H1
      as (_ & E1 & E2 & E3 & E4 & E5 & E6 & E7 & E8 & E9).
    apply IH in H as (F1 & F2 & F3 & F4 & F5 & F6 & F7 & F8 & F9).
    rewrite F1, F2, F3, F4, F5, F6, F7, F8, F9.
    rewrite E1, E2, E3, E4, E5, E6, E7, E8, E9.
    rewrite <- !app_assoc. repeat split.
Qed.

Lemma statistics_loop_total (rk : RiverKms) (g : list gauge) (gp : GaugePairs)
    (f : string) (l : list Z) (acc : stats_lists) :
  (forall i, In i l -> computable rk g gp f i) ->
  exists acc', for_each (step rk g gp f) l acc = Ok acc'.
Proof.
  revert acc. induction l as [|i l IH]; intros acc H; simpl; [eauto |].
  destruct (statistics_step_total rk g gp f acc i) as [acc1 ->];
    [apply H; left; reflexivity |].
  simpl. apply IH. intros; apply H; right; assumption.
Qed.

Lemma statistics_frame (acc : stats_lists) (n : nat) :
  length (years acc) = n -> length (components_num acc) = n ->
  length (low acc) = n -> length (high acc) = n ->
  length (mins acc) = n -> length (maxs acc) = n ->
  length (means acc) = n -> length (medians acc) = n -> length (stds acc) = n ->
  of_dict (statistics_table acc) None
  = Ok {| df_index := map LInt (range 0 (Z.of_nat n));
          df_columns := statistics_table acc |}.
Proof.
  intros H1 H2 H3 H4 H5 H6 H7 H8 H9. unfold of_dict, statistics_table.
  cbn [forallb snd]. rewrite !length_map.
  rewrite H1, H2, H3, H4, H5, H6, H7, H8, H9, Nat.eqb_refl. reflexivity.
Qed.

(** What a returned statistics table is made of. *)
Lemma get_statistics_ok (rk : RiverKms) (g : list gauge) (gp : GaugePairs)
    (f : string) (df : DataFrame) :
  statistics rk g gp f = Ok df ->
  exists acc,
    df = {| df_index := map LInt (range 0 144); df_columns := statistics_table acc |}
    /\ years acc = dataset_years
    /\ components_num acc
       = map (fun i => Z.of_nat (length (weakly_connected_components (graph_of gp f i))))
             dataset_years
    /\ low acc
       = map (fun i => count "yellow" (node_colors (colors_of g f i) g)) dataset_years
    /\ high acc
       = map (fun i => count "red" (node_colors (colors_of g f i) g)) dataset_years
    /\ map Ok (mins acc) = map (fun i => np_min (velocities_of rk gp f i)) dataset_years
    /\ map Ok (maxs acc) = map (fun i => np_max (velocities_of rk gp f i)) dataset_years
    /\ means acc = map (fun i => np_mean (velocities_of rk gp f i)) dataset_years
    /\ medians acc = map (fun i => np_median (velocities_of rk gp f i)) dataset_years
    /\ stds acc = map (fun i => np_std (velocities_of rk gp f i)) dataset_years.
Proof.
  unfold get_statistics. intros H.
  apply bind_ok_inv in H as (acc & Hloop & Hdf).
  apply statistics_loop in Hloop as (F1 & F2 & F3 & F4 & F5 & F6 & F7 & F8 & F9).
  change (years stats_empty ++ range 1876 2020) with dataset_years in F1.
  change (components_num stats_empty ++ ?l) with l in F2.
  change (low stats_empty ++ ?l) with l in F3.
  change (high stats_empty ++ ?l) with l in F4.
  change (map Ok (mins stats_empty) ++ ?l) with l in F5.
  change (map Ok (maxs stats_empty) ++ ?l) with l in F6.
  change (means stats_empty ++ ?l) with l in F7.
  change (medians stats_empty ++ ?l) with l in F8.
  change (stds stats_empty ++ ?l) with l in F9.
  fold dataset_years in F2, F3, F4, F5, F6, F7, F8, F9.
  assert (Hn : length dataset_years = 144%nat) by reflexivity.
  rewrite (statistics_frame acc 144) in Hdf.
  - injection Hdf as <-. exists acc. repeat split; assumption.
  - by rewrite F1.
  - by rewrite F2, length_map.
  - by rewrite F3, length_map.
  - by rewrite F4, length_map.
  - by rewrite (length_map_ok _ _ _ F5).
  - by rewrite (length_map_ok _ _ _ F6).
  - by rewrite F7, length_map.
  - by rewrite F8, length_map.
  - by rewrite F9, length_map.
Qed.

Lemma lookup_dataset_year (i : Z) :
  1876 <= i <= 2019 -> dataset_years !! Z.to_nat (i - 1876) = Some i.
Proof.
  intros Hi. unfold dataset_years. rewrite lookup_range by lia. f_equal. lia.
Qed.

Lemma statistics_cell (acc : stats_lists) (ix : list label) (c r : nat) (name : string)
    (col : list cell) (v : cell) :
  statistics_table acc !! c = Some (name, col) -> col !! r = Some v ->
  iat {| df_index := ix; df_columns := statistics_table acc |} r c = Some v.
Proof. intros Hc Hr. unfold iat. simpl df_columns. by rewrite Hc. Qed.

(** A table is returned whenever every year can be computed. *)
Lemma get_statistics_total (rk : RiverKms) (g : list gauge) (gp : GaugePairs)
    (f : string) :
  (forall i : Z, 1876 <= i <= 2019 -> computable rk g gp f i) ->
  exists df, statistics rk g gp f = Ok df.
Proof.
  intros Hall. unfold get_statistics.
    destruct (statistics_loop_total rk g gp f (range 1876 2020) stats_empty)
      as [acc Hacc].
    { intros i Hi. apply Hall. apply in_range in Hi. lia. }
    rewrite Hacc. simpl bind. eexists.
    apply statistics_loop in Hacc as (F1 & F2 & F3 & F4 & F5 & F6 & F7 & F8 & F9).
    apply (f_equal length) in F5, F6. rewrite length_app, !length_map in F5, F6.
    apply (statistics_frame acc 144);
      rewrite ?F1, ?F2, ?F3, ?F4, ?F5, ?F6, ?F7, ?F8, ?F9;
      rewrite ?length_app, ?length_map, length_range; reflexivity.
Qed.

(** C7: a returned statistics table has exactly 144 rows, one per
    calendar year 1876..2019 in chronological order, and exactly the
    9 named columns: year, number of weakly-connected components of the
    yearly graph, yellow count, red count, and min, max, mean, median
    and standard deviation (as numpy computes them) of the yearly edge
    velocities; and a table is returned whenever every year can be
    computed. *)
Theorem get_statistics_table (rk : RiverKms) (g : list gauge) (gp : GaugePairs)
    (f : string) :
  (forall df, statistics rk g gp f = Ok df ->
     nrows df = 144%nat
     /\ df_index df = map LInt (range 0 144)
     /\ map fst (df_columns df)
        = ["Datum (ev)"; "Arhullam (db)"; "Kisviz (db)"; "Nagyviz (db)";
           "Min. sebesseg (km/h)"; "Max. sebesseg (km/h)"; "Atlagsebesseg (km/h)";
           "Median sebesseg (km/h)"; "Sebessegek szorasa"]
     /\ Forall (fun c => length (snd c) = 144%nat) (df_columns df)
     /\ forall i : Z, 1876 <= i <= 2019 ->
          iat df (Z.to_nat (i - 1876)) 0 = Some (CInt i)
          /\ iat df (Z.to_nat (i - 1876)) 1
             = Some (CInt (Z.of_nat (length (weakly_connected_components
                                               (graph_of gp f i)))))
          /\ iat df (Z.to_nat (i - 1876)) 2
             = Some (CInt (count "yellow" (node_colors (colors_of g f i) g)))
          /\ iat df (Z.to_nat (i - 1876)) 3
             = Some (CInt (count "red" (node_colors (colors_of g f i) g)))
          /\ (exists m, np_min (velocities_of rk gp f i) = Ok m
                        /\ iat df (Z.to_nat (i - 1876)) 4 = Some (CFloat m))
          /\ (exists m, np_max (velocities_of rk gp f i) = Ok m
                        /\ iat df (Z.to_nat (i - 1876)) 5 = Some (CFloat m))
          /\ iat df (Z.to_nat (i - 1876)) 6
             = Some (CFloat (np_mean (velocities_of rk gp f i)))
          /\ iat df (Z.to_nat (i - 1876)) 7
             = Some (CFloat (np_median (velocities_of rk gp f i)))
          /\ iat df (Z.to_nat (i - 1876)) 8
             = Some (CFloat (np_std (velocities_of rk gp f i))))
  /\ ((forall i : Z, 1876 <= i <= 2019 -> computable rk g gp f i) ->
      exists df, statistics rk g gp f = Ok df).
Proof.
  split.
  - intros df Hdf.
    apply get_statistics_ok in Hdf
      as (acc & -> & F1 & F2 & F3 & F4 & F5 & F6 & F7 & F8 & F9).
    assert (Hn : length dataset_years = 144%nat) by reflexivity.
    split; [reflexivity |]. split; [reflexivity |]. split; [reflexivity |]. split.
    + simpl df_columns. unfold statistics_table.
      repeat apply List.Forall_cons; try apply List.Forall_nil;
        simpl snd; rewrite length_map.
      * by rewrite F1.
      * by rewrite F2, length_map.
      * by rewrite F3, length_map.
      * by rewrite F4, length_map.
      * by rewrite (length_map_ok _ _ _ F5).
      * by rewrite (length_map_ok _ _ _ F6).
      * by rewrite F7, length_map.
      * by rewrite F8, length_map.
      * by rewrite F9, length_map.
    + intros i Hi. pose proof (lookup_dataset_year i Hi) as Hy.
      destruct (lookup_map_ok _ _ _ _ _ F5 Hy) as (mn & Hmn & Emn).
      destruct (lookup_map_ok _ _ _ _ _ F6 Hy) as (mx & Hmx & Emx).
      repeat split.
      * eapply statistics_cell; [reflexivity |]. rewrite F1. by apply lookup_map.
      * eapply statistics_cell; [reflexivity |]. rewrite F2.
        apply lookup_map. by erewrite lookup_map.
      * eapply statistics_cell; [reflexivity |]. rewrite F3.
        apply lookup_map. by erewrite lookup_map.
      * eapply statistics_cell; [reflexivity |]. rewrite F4.
        apply lookup_map. by erewrite lookup_map.
      * exists mn. split; [exact Emn |].
        eapply statistics_cell; [reflexivity |]. by apply lookup_map.
      * exists mx. split; [exact Emx |].
        eapply statistics_cell; [reflexivity |]. by apply lookup_map.
      * eapply statistics_cell; [reflexivity |]. rewrite F7.
        apply lookup_map. by erewrite lookup_map.
      * eapply statistics_cell; [reflexivity |]. rewrite F8.
        apply lookup_map. by erewrite lookup_map.
      * eapply statistics_cell; [reflexivity |]. rewrite F9.
        apply lookup_map. by erewrite lookup_map.
  - apply get_statistics_total.
Qed.

(** C8: for every list of color labels the yellow count plus the red
    count is at most the length of the list, and so in every row of a
    returned statistics table the low count plus the high count is at
    most the number of classified nodes of that year. *)
Theorem statistics_low_high_bound (rk : RiverKms) (g : list gauge) (gp : GaugePairs)
    (f : string) :
  (forall colors : list string,
     count "yellow" colors + count "red" colors <= Z.of_nat (length colors))
  /\ (forall df, statistics rk g gp f = Ok df ->
      forall i : Z, 1876 <= i <= 2019 ->
        exists lo hi : Z,
          iat df (Z.to_nat (i - 1876)) 2 = Some (CInt lo)
          /\ iat df (Z.to_nat (i - 1876)) 3 = Some (CInt hi)
          /\ lo = count "yellow" (node_colors (colors_of g f i) g)
          /\ hi = count "red" (node_colors (colors_of g f i) g)
          /\ lo + hi <= Z.of_nat (length (node_colors (colors_of g f i) g))).
Proof.
  split; [exact count_yellow_red |].
  intros df Hdf i Hi.
  apply get_statistics_ok in Hdf as (acc & -> & _ & _ & F3 & F4 & _).
  pose proof (lookup_dataset_year i Hi) as Hy.
  eexists _, _. split; [| split; [| split; [reflexivity | split; [reflexivity |]]]].
  - eapply statistics_cell; [reflexivity |]. rewrite F3.
    apply lookup_map. by erewrite lookup_map.
  - eapply statistics_cell; [reflexivity |]. rewrite F4.
    apply lookup_map. by erewrite lookup_map.
  - apply count_yellow_red.
Qed.

(** *** The red ratio *)

Local Abbreviation ratio_loop :=
  (red_ratio_loop get_node_colors_in_given_period).
Local Abbreviation ratio_of := (period_ratio get_node_colors_in_given_period).
Local Abbreviation ratio_table := (red_ratio get_node_colors_in_given_period).
Local Abbreviation period_colors :=
  (period_classification get_node_colors_in_given_period).





(** The loop computes the ratio of every period before the first one
    that would end after 2019, in order. *)
Lemma red_ratio_loop_periods (g : list gauge) (f : string) (period : Z)
    (l rest : list Z) (ix : list string) (rs : list float) :
  Forall (fun year => year + period - 1 <= 2019) l ->
  Forall (fun year => year + period - 1 > 2019) rest ->
  ratio_loop g f period (l ++ rest) ix rs
  = (try! rs' := map_result (ratio_of g f period) l in
     Ok (ix ++ map (fun year => period_label year period) l, rs ++ rs')).
Proof.
  intros Hl Hrest. revert ix rs.
  induction Hl as [|year l Hyear Hl IH]; intros ix rs.
  - simpl. rewrite !app_nil_r.
    destruct Hrest as [|year rest Hyear _]; simpl; [reflexivity |].
    destruct (Z.gtb_spec (year + period - 1) 2019); [reflexivity | lia].
  - simpl app. simpl red_ratio_loop.
    destruct (Z.gtb_spec (year + period - 1) 2019) as [? | _]; [lia |].
    simpl map_result. unfold period_ratio at 1.
    unfold period_classification, first_day, last_day, period_end.
    destruct (extend_colors _ g []) as [c|e]; [| reflexivity]. simpl bind.
    destruct (truediv _ _) as [r|e]; [| reflexivity]. simpl bind.
    rewrite IH.
    destruct (map_result _ l) as [rs'|e]; [| reflexivity]. simpl.
    unfold period_label, first_day, last_day, period_end.
    by rewrite <- !app_assoc.
Qed.

(** What [red_ratio] returns for a period length of at least one year. *)
Lemma red_ratio_periods (g : list gauge) (f : string) (period : Z) :
  1 <= period ->
  ratio_table g f period
  = (try! rs := map_result (ratio_of g f period) (complete_periods period) in
     Ok {| df_index :=
             map LStr (map (fun year => period_label year period)
                           (complete_periods period));
           df_columns := [("ratio", map CFloat rs)] |}).
Proof.
  intros HP. unfold red_ratio.
  destruct (arange_periods period HP) as (rest & -> & Hl & Hrest). simpl bind.
  rewrite (red_ratio_loop_periods g f period _ rest [] [] Hl Hrest).
  destruct (map_result _ (complete_periods period)) as [rs|e] eqn:Hrs;
    [| reflexivity].
  simpl. rewrite Nat.eqb_refl. simpl.
  apply map_result_ok, (f_equal length) in Hrs. rewrite !length_map in Hrs.
  rewrite !length_map, Hrs, Nat.eqb_refl. reflexivity.
Qed.






End AggregationFacts.

Lemma moving_average_spec_witness :
  Z.of_nat (length (yearly_mean_moving_average unit unit unit fixed_graph
                      sample_velocities (numpy := Np.reference) tt tt "data" 10))
  = 2020 - (1876 + 10).
Proof.
  apply (moving_average_spec unit unit unit fixed_graph sample_velocities
           (numpy := Np.reference) tt tt "data" 10).
  lia.
Defined.

Lemma sample_year_computable (i : Z) :
  year_computable unit unit unit fixed_graph sample_velocities sample_colors
    (numpy := Np.reference) tt [GInt 1] tt "data" i.
Proof.
  repeat split.
  intros g [<- | []]. eexists. reflexivity.
Qed.

Lemma get_statistics_table_witness :
  exists df,
    get_statistics unit unit unit unit fixed_graph sample_velocities sample_colors
      sample_components (numpy := Np.reference) tt [GInt 1] tt "data" = Ok df
    /\ nrows df = 144%nat
    /\ iat df 24 2 = Some (CInt 2).
Proof.
  destruct (get_statistics_table unit unit unit unit fixed_graph sample_velocities
              sample_colors sample_components (numpy := Np.reference)
              tt [GInt 1] tt "data") as [Hshape Htotal].
  destruct Htotal as [df Hdf]; [intros i _; apply sample_year_computable |].
  exists df. split; [exact Hdf |].
  destruct (Hshape df Hdf) as (Hrows & _ & _ & _ & Hcells).
  split; [exact Hrows |].
  destruct (Hcells 1900) as (_ & _ & Hlow & _); [lia |]. exact Hlow.
Defined.

Lemma statistics_low_high_bound_witness :
  exists df lo hi,
    get_statistics unit unit unit unit fixed_graph sample_velocities sample_colors
      sample_components (numpy := Np.reference) tt [GInt 1] tt "data" = Ok df
    /\ iat df 24 2 = Some (CInt lo) /\ iat df 24 3 = Some (CInt hi)
    /\ lo + hi <= 3.
Proof.
  destruct (get_statistics_total unit unit unit unit fixed_graph sample_velocities
              sample_colors sample_components (numpy := Np.reference)
              tt [GInt 1] tt "data") as [df Hdf];
    [intros i _; apply sample_year_computable |].
  destruct (statistics_low_high_bound unit unit unit unit fixed_graph
              sample_velocities sample_colors sample_components
              (numpy := Np.reference) tt [GInt 1] tt "data") as [_ Hrow].
  destruct (Hrow df Hdf 1900) as (lo & hi & Hlo & Hhi & _ & _ & Hle); [lia |].
  exists df, lo, hi. repeat split; assumption.
Defined.





(** ** The low/high grid *)

Lemma setitem2_at (m : list (list float)) (r c : nat) (row : list float) (v : float) :
  m !! r = Some row -> (c < length row)%nat ->
  Np.setitem2 m (Z.of_nat r) (Z.of_nat c) v = Ok (<[r := <[c := v]> row]> m).
Proof.
  intros Hrow Hc. pose proof (lookup_lt_Some _ _ _ Hrow) as Hr.
  unfold Np.setitem2, Np.axis_index.
  destruct (Z.leb_spec 0 (Z.of_nat r)); [| lia].
  destruct (Z.ltb_spec (Z.of_nat r) (Z.of_nat (length m))); [| lia].
  simpl. rewrite Nat2Z.id, Hrow.
  destruct (Z.leb_spec 0 (Z.of_nat c)); [| lia].
  destruct (Z.ltb_spec (Z.of_nat c) (Z.of_nat (length row))); [| lia].
  simpl. by rewrite Nat2Z.id.
Qed.

Lemma low_high_columns_headers (gauges : list gauge) :
  low_high_columns gauges = low_high_headers gauges.
Proof.
  unfold low_high_columns, low_high_headers.
  assert (H : forall acc,
             fold_left (fun columns g =>
                          (columns ++ [str g +:+ " (low)"]) ++ [str g +:+ " (high)"])
                       gauges acc
             = acc ++ flat_map (fun g => [str g +:+ " (low)"; str g +:+ " (high)"])
                               gauges).
  { induction gauges as [|g rest IH]; intros acc; simpl.
    - by rewrite app_nil_r.
    - rewrite IH, <- !app_assoc. reflexivity. }
  apply H.
Qed.

Lemma length_low_high_cells (dct : gmap string (list string)) (gauges : list gauge) :
  length (low_high_cells dct gauges) = (2 * length gauges)%nat.
Proof. induction gauges as [|g rest IH]; simpl; [reflexivity | rewrite IH; lia]. Qed.

Lemma length_low_high_headers (gauges : list gauge) :
  length (low_high_headers gauges) = (2 * length gauges)%nat.
Proof. induction gauges as [|g rest IH]; simpl; [reflexivity | rewrite IH; lia]. Qed.

Lemma lookup_low_high_cells (dct : gmap string (list string)) (gauges : list gauge)
    (k : nat) (g : gauge) :
  gauges !! k = Some g ->
  low_high_cells dct gauges !! (2 * k)%nat
  = Some (float_of_int (count "yellow" (gauge_colors dct g)))
  /\ low_high_cells dct gauges !! (2 * k + 1)%nat
     = Some (float_of_int (count "red" (gauge_colors dct g))).
Proof.
  revert k. induction gauges as [|g0 rest IH]; intros k Hk; [discriminate |].
  destruct k as [|k]; simpl in Hk.
  - injection Hk as ->. split; reflexivity.
  - destruct (IH k Hk) as [Hy Hr].
    replace (2 * S k)%nat with (S (S (2 * k))) by lia.
    replace (S (S (2 * k)) + 1)%nat with (S (S (2 * k + 1))) by lia.
    split; assumption.
Qed.

Lemma insert_after {A : Type} (l1 l2 : list A) (x y : A) :
  <[length l1 := x]> (l1 ++ y :: l2) = l1 ++ x :: l2.
Proof. induction l1 as [|a l1 IH]; simpl; [reflexivity | by rewrite IH]. Qed.

Lemma insert_after_next {A : Type} (l1 l2 : list A) (x y z : A) :
  <[(length l1 + 1)%nat := x]> (l1 ++ z :: y :: l2) = l1 ++ z :: x :: l2.
Proof. induction l1 as [|a l1 IH]; simpl; [reflexivity | by rewrite IH]. Qed.

(** The loop over the gauges overwrites the first [2 * len(gauges)]
    cells that follow the ones already written in row [i - 1876]. *)
Lemma fill_year_row (dct : gmap string (list string)) (i : Z) (gauges : list gauge)
    (k : Z) (m : list (list float)) (r : nat) (done rest : list float) :
  classifies dct gauges ->
  m !! r = Some (done ++ rest) ->
  i - 1876 = Z.of_nat r ->
  2 * k - 2 = Z.of_nat (length done) ->
  (2 * length gauges <= length rest)%nat ->
  fill_year dct i gauges k m
  = Ok (<[r := done ++ low_high_cells dct gauges
                ++ drop (2 * length gauges) rest]> m).
Proof.
  revert k m done rest.
  induction gauges as [|g gs IH]; intros k m done rest Hcl Hrow Hi Hk Hlen.
  - simpl. by rewrite list_insert_id.
  - destruct (Hcl g) as [cs Hcs]; [left; reflexivity |].
    destruct rest as [|a [|b rest']]; simpl in Hlen; try lia.
    pose proof (lookup_lt_Some _ _ _ Hrow) as Hr.
    simpl fill_year. unfold lookup_key at 1. rewrite Hcs. simpl bind.
    rewrite Hi, Hk.
    rewrite (setitem2_at m r (length done) (done ++ a :: b :: rest'))
      by (try assumption; rewrite length_app; simpl; lia).
    simpl bind.
    rewrite insert_after.
    replace (2 * k - 1) with (Z.of_nat (length done + 1)) by lia.
    rewrite (setitem2_at _ r (length done + 1)
               (done ++ float_of_int (count "yellow" cs) :: b :: rest'))
      by (try (rewrite length_app; simpl; lia);
          apply list_lookup_insert_eq; assumption).
    simpl bind. rewrite list_insert_insert_eq, insert_after_next.
    rewrite (IH (k + 1) _
               (done ++ [float_of_int (count "yellow" cs); float_of_int (count "red" cs)])
               rest').
    + rewrite list_insert_insert_eq. do 2 f_equal.
      replace (drop (2 * length (g :: gs)) (a :: b :: rest'))
        with (drop (2 * length gs) rest')
        by (replace (2 * length (g :: gs))%nat with (S (S (2 * length gs)))
              by (simpl; lia); reflexivity).
      change (low_high_cells dct (g :: gs))
        with ([float_of_int (count "yellow" (gauge_colors dct g));
               float_of_int (count "red" (gauge_colors dct g))]
              ++ low_high_cells dct gs).
      unfold gauge_colors at 1 2. rewrite Hcs. simpl default.
      by rewrite <- !app_assoc.
    + intros g' Hin. apply Hcl. right. exact Hin.
    + rewrite <- app_assoc. simpl app.
      apply list_lookup_insert_eq. exact Hr.
    + exact Hi.
    + rewrite length_app. simpl. lia.
    + lia.
Qed.

Lemma map_fst_imap {A B : Type} (h : nat -> A -> B) (l : list A) :
  map fst (imap (fun j a => (a, h j a)) l) = l.
Proof.
  revert h. induction l as [|a l IH]; intros h; simpl; [reflexivity |].
  f_equal. apply (IH (fun j => h (S j))).
Qed.

Section LowHighFacts.

Variable get_node_colors_in_given_period :
  list gauge -> string -> string -> string -> gmap string (list string).

Local Abbreviation colors_of := (year_classification get_node_colors_in_given_period).
Local Abbreviation low_high := (low_high_by_gauge_yearly get_node_colors_in_given_period).
Local Abbreviation year_step := (low_high_step get_node_colors_in_given_period).

Lemma low_high_step_row (g : list gauge) (f : string) (ys : list Z)
    (m : list (list float)) (i : Z) (r : nat) :
  length g = 14%nat ->
  classifies (colors_of g f i) g ->
  m !! r = Some (replicate 28 0%float) ->
  i - 1876 = Z.of_nat r ->
  year_step g f (ys, m) i = Ok (ys ++ [i], <[r := low_high_cells (colors_of g f i) g]> m).
Proof.
  intros Hg Hcl Hrow Hi. unfold low_high_step.
  rewrite (fill_year_row _ i g 1 m r [] (replicate 28 0%float));
    try assumption; try reflexivity.
  - simpl bind. rewrite Hg. simpl drop. rewrite app_nil_r. reflexivity.
  - rewrite Hg. simpl. lia.
Qed.

Lemma low_high_loop (g : list gauge) (f : string) (n : nat) (start : Z)
    (ys : list Z) (done : list (list float)) :
  length g = 14%nat ->
  (forall i, start <= i < start + Z.of_nat n -> classifies (colors_of g f i) g) ->
  start - 1876 = Z.of_nat (length done) ->
  for_each (year_step g f) (seqZ start (Z.of_nat n))
           (ys, done ++ replicate n (replicate 28 0%float))
  = Ok (ys ++ seqZ start (Z.of_nat n),
        done ++ map (fun i => low_high_cells (colors_of g f i) g)
                    (seqZ start (Z.of_nat n))).
Proof.
  intros Hg. revert start ys done.
  induction n as [|n IH]; intros start ys done Hcl Hstart.
  - simpl. by rewrite !app_nil_r.
  - rewrite seqZ_cons by lia.
    replace (Z.pred (Z.of_nat (S n))) with (Z.of_nat n) by lia.
    set (zero_row := replicate 28 0%float).
    cbn [for_each replicate]. subst zero_row.
    rewrite (low_high_step_row g f ys _ start (length done)); try assumption.
    + cbn [bind]. rewrite insert_after.
      rewrite (cons_middle _ done), app_assoc.
      rewrite (IH (Z.succ start) (ys ++ [start])
                 (done ++ [low_high_cells (colors_of g f start) g])).
      * cbn [map]. rewrite <- !app_assoc. reflexivity.
      * intros i Hi. apply Hcl. lia.
      * rewrite length_app. simpl. lia.
    + apply Hcl. lia.
    + apply list_lookup_middle. reflexivity.
Qed.

(** What the low/high grid is for fourteen classified gauges. *)
Lemma low_high_ok (g : list gauge) (f : string) :
  length g = 14%nat ->
  (forall i, 1876 <= i <= 2019 -> classifies (colors_of g f i) g) ->
  low_high g f
  = Ok {| df_index := map LInt dataset_years;
          df_columns :=
            imap (fun j name =>
                    (name,
                     map (fun row => CFloat (nth j row 0%float))
                         (map (fun i => low_high_cells (colors_of g f i) g)
                              dataset_years)))
                 (low_high_headers g) |}.
Proof.
  intros Hg Hcl. unfold low_high_by_gauge_yearly.
  change (range 1876 2020) with (seqZ 1876 (Z.of_nat 144)).
  change (Np.zeros 144 28) with ([] ++ replicate 144 (replicate 28 0%float)).
  rewrite (low_high_loop g f 144 1876 [] []); [| exact Hg | | reflexivity].
  - cbn [bind]. rewrite low_high_columns_headers. unfold of_matrix.
    change (seqZ 1876 (Z.of_nat 144)) with dataset_years.
    cbn [app]. rewrite !length_map, Nat.eqb_refl. cbn [andb].
    replace (forallb _ _) with true; [reflexivity |].
    symmetry. apply forallb_forall. intros row Hrow.
    apply in_map_iff in Hrow as (i & <- & _).
    rewrite length_low_high_cells, length_low_high_headers. apply Nat.eqb_refl.
  - intros i Hi. apply Hcl. lia.
Qed.

(** C3 (amended): for every list of exactly 14 classified gauges the
    grid, preallocated as 144 x 28 zeros, comes back with 144 rows
    labelled by the years 1876..2019 and 28 = 2 x |gauges| columns
    headed, in gauge order, by the low and then the high column of each
    gauge; the cells of year y in the two columns of the gauge at
    position k (counted from 0: columns 2k and 2k+1, the code's 2k-2 and
    2k-1 for its counter from 1) hold its yellow and its red count. *)
Theorem low_high_grid (g : list gauge) (f : string) :
  length g = 14%nat ->
  (forall i, 1876 <= i <= 2019 -> classifies (colors_of g f i) g) ->
  Np.zeros 144 28 = replicate 144 (replicate 28 0%float)
  /\ exists df,
      low_high g f = Ok df
      /\ nrows df = 144%nat
      /\ ncols df = 28%nat
      /\ ncols df = (2 * length g)%nat
      /\ df_index df = map LInt (range 1876 2020)
      /\ map fst (df_columns df) = low_high_headers g
      /\ forall (y : Z) (k : nat) (gauge_k : gauge),
           1876 <= y <= 2019 -> g !! k = Some gauge_k ->
           iat df (Z.to_nat (y - 1876)) (2 * k)
           = Some (CFloat (float_of_int
                             (count "yellow" (gauge_colors (colors_of g f y) gauge_k))))
           /\ iat df (Z.to_nat (y - 1876)) (2 * k + 1)
              = Some (CFloat (float_of_int
                                (count "red" (gauge_colors (colors_of g f y) gauge_k)))).
Proof.
  intros Hg Hcl. split; [reflexivity |].
  eexists. split; [by apply low_high_ok |].
  unfold nrows, ncols. cbn [df_index df_columns].
  assert (Hcols : length (imap (fun j name =>
                    (name,
                     map (fun row => CFloat (nth j row 0%float))
                         (map (fun i => low_high_cells (colors_of g f i) g)
                              dataset_years)))
                 (low_high_headers g)) = 28%nat).
  { rewrite length_imap, length_low_high_headers, Hg. reflexivity. }
  split; [by rewrite length_map |]. split; [exact Hcols |].
  split; [rewrite Hcols, Hg; reflexivity |].
  split; [reflexivity |]. split; [apply map_fst_imap |].
  intros y k gauge_k Hy Hk.
  destruct (lookup_low_high_cells (colors_of g f y) g k gauge_k Hk) as [Hlow Hhigh].
  pose proof (lookup_lt_Some _ _ _ Hk) as Hlt. rewrite Hg in Hlt.
  assert (Hhead : forall c, (c < 28)%nat ->
                    exists name, low_high_headers g !! c = Some name).
  { intros c Hc. apply lookup_lt_is_Some.
    rewrite length_low_high_headers, Hg. exact Hc. }
  unfold iat. cbn [df_columns]. rewrite !list_lookup_imap.
  destruct (Hhead (2 * k)%nat) as [n1 ->]; [lia |].
  destruct (Hhead (2 * k + 1)%nat) as [n2 ->]; [lia |].
  cbn [fmap option_fmap option_map]. split.
  - erewrite lookup_map; [| apply lookup_map, lookup_dataset_year, Hy].
    by erewrite nth_lookup_Some.
  - erewrite lookup_map; [| apply lookup_map, lookup_dataset_year, Hy].
    by erewrite nth_lookup_Some.
Qed.

End LowHighFacts.

Lemma fourteen_gauges_classified (i : Z) :
  classifies (year_classification sample_colors fourteen_gauges "data" i)
    fourteen_gauges.
Proof.
  intros g Hin. apply list_elem_of_In, elem_of_replicate in Hin as [-> _].
  eexists. reflexivity.
Qed.

Lemma low_high_grid_witness :
  exists df,
    low_high_by_gauge_yearly sample_colors fourteen_gauges "data" = Ok df
    /\ nrows df = 144%nat /\ ncols df = 28%nat
    /\ iat df 24 6 = Some (CFloat (float_of_int 2))
    /\ iat df 24 7 = Some (CFloat (float_of_int 1)).
Proof.
  destruct (low_high_grid sample_colors fourteen_gauges "data")
    as (_ & df & Hdf & Hrows & Hcols & _ & _ & _ & Hcells);
    [reflexivity | intros i _; apply fourteen_gauges_classified |].
  exists df. split; [exact Hdf |]. split; [exact Hrows |]. split; [exact Hcols |].
  apply (Hcells 1900 3%nat (GInt 1)); [lia | reflexivity].
Defined.

(** C3, as stated: with a single gauge the 144 x 28 array does not fit
    the two column headers and no grid is returned. *)
Lemma low_high_grid_counterexample : ~ low_high_grid_for_every_gauge_list.
Proof.
  intros H.
  destruct (H sample_colors [GInt 1] "data") as (df & Hdf & _).
  - intros i g [<- | []]. eexists. reflexivity.
  - assert (E : low_high_by_gauge_yearly sample_colors [GInt 1] "data"
                = Raise ValueError) by (vm_compute; reflexivity).
    rewrite E in Hdf. clear E. discriminate Hdf.
Qed.

(** ** Slope statistics by vertex pair *)

Lemma ltb_not_leb (a b : string) : String.ltb a b = negb (String.leb b a).
Proof.
  unfold String.ltb, String.leb. rewrite (String.compare_antisym b a).
  destruct (String.compare a b); reflexivity.
Qed.

(** A date is outside a period exactly when it is not inside it. *)
Lemma outside_period (year period : Z) (j : string) :
  String.ltb j (str_int year +:+ "-01-01")
  || String.ltb (str_int (year + period - 1) +:+ "-12-31") j
  = negb (in_period year period j).
Proof.
  unfold in_period, first_day, last_day, period_end.
  rewrite !ltb_not_leb, negb_andb. reflexivity.
Qed.

Lemma all_outside_period (year period : Z) (l : list string) :
  forallb (fun j => String.ltb j (str_int year +:+ "-01-01")
                    || String.ltb (str_int (year + period - 1) +:+ "-12-31") j) l
  = negb (existsb (in_period year period) l).
Proof.
  induction l as [|j l IH]; simpl; [reflexivity |].
  by rewrite IH, outside_period, negb_orb.
Qed.

Lemma getitem_in {V : Type} (d : list (string * V)) (k : string) (v : V) :
  List.NoDup (keys d) -> In (k, v) d -> getitem d k = Ok v.
Proof.
  induction d as [|[k' v'] d IH]; simpl; [intros _ [] |].
  intros Hnd [[= -> ->] | Hin].
  - by rewrite String.eqb_refl.
  - apply List.NoDup_cons_iff in Hnd as [Hk' Hnd].
    destruct (String.eqb_spec k' k) as [-> | _].
    + exfalso. apply Hk'. unfold keys. apply in_map_iff. by exists (k, v).
    + by apply IH.
Qed.

Lemma for_each_append {A B : Type} (f : B -> result A) (l : list B) (acc : list A) :
  for_each (fun acc b => try! x := f b in Ok (acc ++ [x])) l acc
  = (try! xs := map_result f l in Ok (acc ++ xs)).
Proof.
  revert acc. induction l as [|b l IH]; intros acc; simpl.
  - by rewrite app_nil_r.
  - destruct (f b) as [x|e]; simpl; [| reflexivity].
    rewrite IH. destruct (map_result f l) as [xs|e]; simpl; [| reflexivity].
    by rewrite <- app_assoc.
Qed.

Section SlopesFacts.

Variable Value : Type.
Context {numpy : Numpy}.

Local Abbreviation json := (vertex_pairs_json Value).
Local Abbreviation pool_of := (period_pool Value).
Local Abbreviation dated_periods := (periods_with_dates Value).
Local Abbreviation loop := (slopes_loop Value).
Local Abbreviation table_of_pair := (slopes_of_pair Value).
Local Abbreviation tables := (slope_tables Value).
Local Abbreviation rows_of := (period_rows Value).

(** The slopes looked up date by date are the slopes of the in-range
    items, in order. *)
Lemma valid_slopes_items (ds l : list (string * (Value * slope))) (p : string -> bool) :
  (forall item, In item l -> getitem ds (fst item) = Ok (snd item)) ->
  map_result (fun valid_date =>
                try! record := getitem ds valid_date in Ok (snd record))
             (List.filter p (map fst l))
  = Ok (map (fun item => snd (snd item)) (List.filter (fun item => p (fst item)) l)).
Proof.
  induction l as [|item l IH]; intros Hget; simpl; [reflexivity |].
  destruct (p (fst item)) eqn:Hp; simpl.
  - rewrite (Hget item) by (left; reflexivity). simpl.
    rewrite IH by (intros; apply Hget; right; assumption). reflexivity.
  - apply IH. intros; apply Hget; right; assumption.
Qed.

Lemma add_rows_nil (acc : slope_lists) : add_rows acc [] [] = acc.
Proof. destruct acc. unfold add_rows. simpl. by rewrite !app_nil_r. Qed.

Lemma add_rows_cons (acc : slope_lists) (label : string) (labels : list string)
    (row : slope_row) (rows : list slope_row) :
  add_rows
    {| slope_mins := slope_mins acc ++ [row_min row];
       slope_maxs := slope_maxs acc ++ [row_max row];
       slope_means := slope_means acc ++ [row_mean row];
       slope_medians := slope_medians acc ++ [row_median row];
       slope_stds := slope_stds acc ++ [row_std row];
       slope_indices := slope_indices acc ++ [label] |}
    labels rows
  = add_rows acc (label :: labels) (row :: rows).
Proof. unfold add_rows. simpl. by rewrite <- !app_assoc. Qed.

(** The loop of one pair visits the complete periods in order, skips
    those without an in-range date and appends the statistics of the
    pool of each of the others. *)
Lemma slopes_loop_periods (vp : json) (vtx : string)
    (ds : list (string * (Value * slope))) (period : Z) (l rest : list Z)
    (acc : slope_lists) :
  getitem vp vtx = Ok ds ->
  List.NoDup (keys ds) ->
  Forall (fun year => year + period - 1 <= 2019) l ->
  Forall (fun year => year + period - 1 > 2019) rest ->
  loop vp vtx period (l ++ rest) acc
  = (try! rows :=
       map_result (fun year => pool_statistics (pool_of ds year period))
         (List.filter (fun year => existsb (in_period year period) (keys ds)) l) in
     Ok (add_rows acc
           (map (fun year => period_label year period)
              (List.filter (fun year => existsb (in_period year period) (keys ds)) l))
           rows)).
Proof.
  intros Hds Hnd Hl Hrest. revert acc.
  induction Hl as [|year l Hyear Hl IH]; intros acc.
  - simpl. rewrite add_rows_nil.
    destruct Hrest as [|year rest Hyear _]; simpl; [reflexivity |].
    destruct (Z.gtb_spec (year + period - 1) 2019); [reflexivity | lia].
  - simpl app. simpl slopes_loop.
    destruct (Z.gtb_spec (year + period - 1) 2019) as [? | _]; [lia |].
    rewrite Hds. simpl bind. rewrite all_outside_period.
    simpl List.filter.
    destruct (existsb (in_period year period) (keys ds)) eqn:Hdates; simpl negb; cbv iota.
    + match goal with
      | |- context [map_result ?f (List.filter ?p (keys ds))] =>
          change (map_result f (List.filter p (keys ds)))
            with (map_result
                    (fun valid_date =>
                       try! record := getitem ds valid_date in Ok (snd record))
                    (List.filter (in_period year period) (map fst ds)))
      end.
      rewrite (valid_slopes_items ds ds (in_period year period))
        by (intros [d v] Hin; by apply getitem_in).
      cbn [bind]. fold (pool_of ds year period).
      simpl map_result. unfold pool_statistics at 1.
      destruct (np_min (pool_of ds year period)) as [mn|e]; [| reflexivity].
      simpl bind.
      destruct (np_max (pool_of ds year period)) as [mx|e]; [| reflexivity].
      simpl bind. rewrite IH.
      destruct (map_result _ _) as [rows|e]; [| reflexivity]. simpl bind.
      f_equal. simpl map.
      rewrite <- add_rows_cons. reflexivity.
    + apply IH.
Qed.

Lemma slopes_frame_of_dict (labels : list string) (rows : list slope_row) :
  length rows = length labels ->
  of_dict (slopes_table (add_rows slope_empty labels rows))
          (Some (map LStr (slope_indices (add_rows slope_empty labels rows))))
  = Ok (slopes_frame labels rows).
Proof.
  intros Hlen. unfold of_dict, slopes_table, add_rows, slopes_frame.
  cbn [slope_empty slope_mins slope_maxs slope_means slope_medians slope_stds
       slope_indices app forallb snd].
  rewrite !length_map, Hlen, !Nat.eqb_refl. reflexivity.
Qed.

(** The table of one pair, for a period length of at least one year. *)
Lemma slopes_of_pair_periods (vp : json) (vtx : string)
    (ds : list (string * (Value * slope))) (period : Z) (years : list Z) :
  1 <= period ->
  Np.arange 1876 2020 period = Ok years ->
  getitem vp vtx = Ok ds ->
  List.NoDup (keys ds) ->
  table_of_pair vp period years vtx
  = (try! rows := rows_of ds period in
     Ok (slopes_frame
           (map (fun year => period_label year period) (dated_periods ds period))
           rows)).
Proof.
  intros HP Hyears Hds Hnd.
  destruct (arange_periods period HP) as (rest & Hyears' & Hl & Hrest).
  rewrite Hyears in Hyears'. injection Hyears' as ->.
  unfold slopes_of_pair.
  rewrite (slopes_loop_periods vp vtx ds period _ rest slope_empty Hds Hnd Hl Hrest).
  fold (dated_periods ds period). unfold period_rows.
  destruct (map_result _ (dated_periods ds period)) as [rows|e] eqn:Hrows;
    [| reflexivity].
  cbn [bind]. apply slopes_frame_of_dict.
  apply map_result_ok, (f_equal length) in Hrows.
  rewrite !length_map in Hrows. by rewrite length_map.
Qed.

Lemma slope_tables_pairs (vp : json) (period : Z) :
  1 <= period ->
  List.NoDup (keys vp) ->
  Forall (fun pair => List.NoDup (keys (snd pair))) vp ->
  tables vp period
  = map_result
      (fun pair =>
         try! rows := rows_of (snd pair) period in
         Ok (slopes_frame
               (map (fun year => period_label year period)
                    (dated_periods (snd pair) period))
               rows))
      vp.
Proof.
  intros HP Hnd Hdates. unfold slope_tables.
  destruct (arange_periods period HP) as (rest & Hyears & _).
  rewrite Hyears. cbn [bind].
  rewrite (for_each_append (table_of_pair vp period _) (keys vp) []).
  assert (E : forall l : list (string * list (string * (Value * slope))),
             (forall pair, In pair l -> In pair vp) ->
             map_result (table_of_pair vp period (complete_periods period ++ rest))
                        (keys l)
             = map_result
                 (fun pair =>
                    try! rows := rows_of (snd pair) period in
                    Ok (slopes_frame
                          (map (fun year => period_label year period)
                               (dated_periods (snd pair) period))
                          rows))
                 l).
  { induction l as [|[vtx ds] l IH]; intros Hsub; [reflexivity |].
    cbn [keys map map_result fst snd].
    rewrite (slopes_of_pair_periods vp vtx ds period _ HP Hyears).
    - fold (keys l). rewrite IH; [reflexivity |].
      intros pair Hin. apply Hsub. right. exact Hin.
    - apply getitem_in; [exact Hnd | apply Hsub; left; reflexivity].
    - rewrite List.Forall_forall in Hdates.
      apply (Hdates (vtx, ds)). apply Hsub. left. reflexivity. }
  rewrite E by auto.
  destruct (map_result _ vp); reflexivity.
Qed.

Lemma pool_statistics_ok (pool : list float) (row : slope_row) :
  pool_statistics pool = Ok row ->
  np_min pool = Ok (row_min row) /\ np_max pool = Ok (row_max row)
  /\ row_mean row = np_mean pool /\ row_median row = np_median pool
  /\ row_std row = np_std pool.
Proof.
  unfold pool_statistics. intros H.
  apply bind_ok_inv in H as (mn & Hmn & H).
  apply bind_ok_inv in H as (mx & Hmx & H).
  injection H as <-. simpl. repeat split; assumption.
Qed.

Lemma in_dated_periods (ds : list (string * (Value * slope))) (period year : Z) :
  1 <= period ->
  In year (dated_periods ds period) <->
  (exists k, 0 <= k /\ year = 1876 + k * period /\ year + period - 1 <= 2019)
  /\ (exists d, In d (keys ds) /\ in_period year period d = true).
Proof.
  intros HP. unfold periods_with_dates.
  rewrite filter_In, in_complete_periods, existsb_exists.
  assert (Hq : period * (144 / period) <= 144 < period * (144 / period + 1)).
  { pose proof (Z.div_mod 144 period ltac:(lia)).
    pose proof (Z.mod_pos_bound 144 period ltac:(lia)). lia. }
  split; intros [(k & Hk) Hd]; (split; [| exact Hd]); exists k.
  - destruct Hk as [Hk ->]. repeat split; [lia | nia].
  - destruct Hk as (Hk & -> & Hend). split; [| reflexivity]. nia.
Qed.

(** What the tables of a returned list are made of. *)
Lemma slope_tables_ok (vp : json) (period : Z) (dfs : list DataFrame) :
  1 <= period ->
  List.NoDup (keys vp) ->
  Forall (fun pair => List.NoDup (keys (snd pair))) vp ->
  tables vp period = Ok dfs ->
  length dfs = length vp
  /\ forall (i : nat) (vtx : string) (ds : list (string * (Value * slope))),
       vp !! i = Some (vtx, ds) ->
       exists df,
         dfs !! i = Some df
         /\ df_index df
            = map (fun year => LStr (period_label year period)) (dated_periods ds period)
         /\ map fst (df_columns df)
            = ["Min. slope (km/h)"; "Max. slope (km/h)"; "Mean"; "Median";
               "Standard deviation"]
         /\ forall (k : nat) (year : Z),
              dated_periods ds period !! k = Some year ->
              (exists m, np_min (pool_of ds year period) = Ok m
                         /\ iat df k 0 = Some (CFloat m))
              /\ (exists m, np_max (pool_of ds year period) = Ok m
                            /\ iat df k 1 = Some (CFloat m))
              /\ iat df k 2 = Some (CFloat (np_mean (pool_of ds year period)))
              /\ iat df k 3 = Some (CFloat (np_median (pool_of ds year period)))
              /\ iat df k 4 = Some (CFloat (np_std (pool_of ds year period))).
Proof.
  intros HP Hnd Hdates Hdfs.
  rewrite (slope_tables_pairs vp period HP Hnd Hdates) in Hdfs.
  apply map_result_ok in Hdfs. symmetry in Hdfs.
  split; [exact (length_map_ok _ _ _ Hdfs) |].
  intros i vtx ds Hi.
  destruct (lookup_map_ok _ _ _ _ _ Hdfs Hi) as (df & Hdf & Edf).
  cbn [snd] in Edf. apply bind_ok_inv in Edf as (rows & Hrows & Edf).
  injection Edf as <-. exists (slopes_frame
                                 (map (fun year => period_label year period)
                                      (dated_periods ds period)) rows).
  split; [exact Hdf |]. split; [cbn [slopes_frame df_index]; by rewrite map_map |].
  split; [reflexivity |].
  intros k year Hk. unfold period_rows in Hrows.
  apply map_result_ok in Hrows. symmetry in Hrows.
  destruct (lookup_map_ok _ _ _ _ _ Hrows Hk) as (row & Hrow & Erow).
  apply pool_statistics_ok in Erow as (Hmin & Hmax & Hmean & Hmedian & Hstd).
  unfold iat, slopes_frame. cbn [df_columns lookup list_lookup].
  repeat split.
  - exists (row_min row). split; [exact Hmin |]. by do 2 apply lookup_map.
  - exists (row_max row). split; [exact Hmax |]. by do 2 apply lookup_map.
  - rewrite <- Hmean. by apply (lookup_map CFloat), (lookup_map row_mean).
  - rewrite <- Hmedian. by apply (lookup_map CFloat), (lookup_map row_median).
  - rewrite <- Hstd. by apply (lookup_map CFloat), (lookup_map row_std).
Qed.

Lemma slope_tables_total (vp : json) (period : Z) :
  1 <= period ->
  List.NoDup (keys vp) ->
  Forall (fun pair => List.NoDup (keys (snd pair))) vp ->
  (forall pair year, In pair vp -> In year (dated_periods (snd pair) period) ->
     is_ok (np_min (pool_of (snd pair) year period)) = true
     /\ is_ok (np_max (pool_of (snd pair) year period)) = true) ->
  exists dfs, tables vp period = Ok dfs.
Proof.
  intros HP Hnd Hdates Hpools.
  rewrite (slope_tables_pairs vp period HP Hnd Hdates).
  apply map_result_total. intros pair Hpair.
  destruct (map_result_total
              (fun year => pool_statistics (pool_of (snd pair) year period))
              (dated_periods (snd pair) period)) as [rows Hrows].
  - intros year Hyear. destruct (Hpools pair year Hpair Hyear) as [Hmin Hmax].
    apply is_ok_true in Hmin as [mn Hmn]. apply is_ok_true in Hmax as [mx Hmx].
    unfold pool_statistics. rewrite Hmn, Hmx. reflexivity.
  - unfold period_rows. rewrite Hrows. reflexivity.
Qed.

End SlopesFacts.

Lemma period_pool_flattened (Value : Type) (ds : list (string * (Value * slope)))
    (year P : Z) :
  period_pool Value ds year P
  = flat_map (fun item => match snd (snd item) with
                          | SlopeFloat s => [s]
                          | SlopeList ss => ss
                          end)
             (List.filter (fun item => in_period year P (fst item)) ds).
Proof.
  unfold period_pool.
  induction (List.filter (fun item => in_period year P (fst item)) ds)
    as [|[d [x sl]] l IH]; [reflexivity |].
  cbn [map flat_map snd]. rewrite IH. by destruct sl.
Qed.

(** C4: for a period length P of at least one year, the rows of a pair
    are those of the non-overlapping P-year periods that start at 1876,
    end no later than 2019 and contain a recorded date of the pair, in
    order; a period without a recorded date has no row; the row of a
    period holds the min, max, mean, median and std of the pool of the
    slopes of its in-range dates, where a date recorded with a scalar
    gives that scalar and a date recorded with a list gives every
    element of the list, in the order of the dates; tables are returned
    when every such pool has a minimum and a maximum; a pair whose only
    record is {"1876-06-01": [x, 5.0]} has, for P = 1, the single row
    min = max = mean = median = 5.0, std = 0; and a pair with the
    records {"1876-06-01": [x, [1.0, 2.0, 4.0]], "1876-09-01": [y, 5.0]}
    has the single row min 1, max 5, mean 3, median 3, std sqrt(2.5) of
    the four pooled slopes. *)
Theorem slope_statistics_by_period :
  (forall (Value : Type) (numpy : Numpy) (vp : vertex_pairs_json Value) (P : Z),
     1 <= P ->
     List.NoDup (keys vp) ->
     Forall (fun pair => List.NoDup (keys (snd pair))) vp ->
     (forall ds year,
        In year (periods_with_dates Value ds P) <->
        (exists k, 0 <= k /\ year = 1876 + k * P /\ year + P - 1 <= 2019)
        /\ (exists d, In d (keys ds) /\ in_period year P d = true))
     /\ (forall ds year,
           period_pool Value ds year P
           = flat_map (fun item => match snd (snd item) with
                                   | SlopeFloat s => [s]
                                   | SlopeList ss => ss
                                   end)
                      (List.filter (fun item => in_period year P (fst item)) ds))
     /\ (forall dfs, slope_tables Value vp P = Ok dfs ->
           length dfs = length vp
           /\ forall (i : nat) (vtx : string) ds,
                vp !! i = Some (vtx, ds) ->
                exists df,
                  dfs !! i = Some df
                  /\ df_index df
                     = map (fun year => LStr (period_label year P))
                           (periods_with_dates Value ds P)
                  /\ map fst (df_columns df)
                     = ["Min. slope (km/h)"; "Max. slope (km/h)"; "Mean"; "Median";
                        "Standard deviation"]
                  /\ forall (k : nat) (year : Z),
                       periods_with_dates Value ds P !! k = Some year ->
                       (exists m, np_min (period_pool Value ds year P) = Ok m
                                  /\ iat df k 0 = Some (CFloat m))
                       /\ (exists m, np_max (period_pool Value ds year P) = Ok m
                                     /\ iat df k 1 = Some (CFloat m))
                       /\ iat df k 2
                          = Some (CFloat (np_mean (period_pool Value ds year P)))
                       /\ iat df k 3
                          = Some (CFloat (np_median (period_pool Value ds year P)))
                       /\ iat df k 4
                          = Some (CFloat (np_std (period_pool Value ds year P))))
     /\ ((forall pair year,
            In pair vp -> In year (periods_with_dates Value (snd pair) P) ->
            is_ok (np_min (period_pool Value (snd pair) year P)) = true
            /\ is_ok (np_max (period_pool Value (snd pair) year P)) = true) ->
         exists dfs, slope_tables Value vp P = Ok dfs))
  /\ (forall (Value : Type) (vp : vertex_pairs_json Value) (x : Value)
             (i : nat) (vtx : string) (dfs : list DataFrame),
        List.NoDup (keys vp) ->
        Forall (fun pair => List.NoDup (keys (snd pair))) vp ->
        vp !! i = Some (vtx, [("1876-06-01", (x, SlopeFloat 5%float))]) ->
        slope_tables Value (numpy := Np.reference) vp 1 = Ok dfs ->
        dfs !! i = Some single_slope_table)
  /\ (forall (Value : Type) (vp : vertex_pairs_json Value) (x y : Value)
             (i : nat) (vtx : string) (dfs : list DataFrame),
        List.NoDup (keys vp) ->
        Forall (fun pair => List.NoDup (keys (snd pair))) vp ->
        vp !! i
        = Some (vtx, [("1876-06-01", (x, SlopeList [1%float; 2%float; 4%float]));
                      ("1876-09-01", (y, SlopeFloat 5%float))]) ->
        slope_tables Value (numpy := Np.reference) vp 1 = Ok dfs ->
        dfs !! i = Some mixed_slope_table).
Proof.
  split; [| split].
  - intros Value numpy vp P HP Hnd Hdates. split; [| split; [| split]].
    + intros ds year. by apply in_dated_periods.
    + intros ds year. apply period_pool_flattened.
    + intros dfs Hdfs. by apply slope_tables_ok.
    + by apply slope_tables_total.
  - intros Value vp x i vtx dfs Hnd Hdates Hi Hdfs.
    rewrite (slope_tables_pairs Value vp 1 ltac:(lia) Hnd Hdates) in Hdfs.
    apply map_result_ok in Hdfs. symmetry in Hdfs.
    destruct (lookup_map_ok _ _ _ _ _ Hdfs Hi) as (df & Hdf & Edf).
    rewrite Hdf. f_equal.
    assert (E : (try! rows :=
                   period_rows Value (numpy := Np.reference)
                     [("1876-06-01", (x, SlopeFloat 5%float))] 1 in
                 Ok (slopes_frame
                       (map (fun year => period_label year 1)
                            (periods_with_dates Value
                               [("1876-06-01", (x, SlopeFloat 5%float))] 1))
                       rows))
                = Ok single_slope_table) by (vm_compute; reflexivity).
    cbn [snd] in Edf. rewrite E in Edf. by injection Edf.
  - intros Value vp x y i vtx dfs Hnd Hdates Hi Hdfs.
    rewrite (slope_tables_pairs Value vp 1 ltac:(lia) Hnd Hdates) in Hdfs.
    apply map_result_ok in Hdfs. symmetry in Hdfs.
    destruct (lookup_map_ok _ _ _ _ _ Hdfs Hi) as (df & Hdf & Edf).
    rewrite Hdf. f_equal.
    assert (E : (try! rows :=
                   period_rows Value (numpy := Np.reference)
                     [("1876-06-01", (x, SlopeList [1%float; 2%float; 4%float]));
                      ("1876-09-01", (y, SlopeFloat 5%float))] 1 in
                 Ok (slopes_frame
                       (map (fun year => period_label year 1)
                            (periods_with_dates Value
                               [("1876-06-01",
                                 (x, SlopeList [1%float; 2%float; 4%float]));
                                ("1876-09-01", (y, SlopeFloat 5%float))] 1))
                       rows))
                = Ok mixed_slope_table) by (vm_compute; reflexivity).
    cbn [snd] in Edf. rewrite E in Edf. by injection Edf.
Qed.

Lemma slope_statistics_by_period_witness :
  (exists dfs df,
     slope_tables unit (numpy := Np.reference) sample_vertex_pairs 2 = Ok dfs
     /\ length dfs = 1%nat
     /\ dfs !! 0%nat = Some df
     /\ iat df 1 0 = Some (CFloat 1%float)
     /\ iat df 1 1 = Some (CFloat 4%float)
     /\ iat df 1 3 = Some (CFloat 2%float))
  /\ (forall dfs,
        slope_tables unit (numpy := Np.reference)
          [("1514-1515", [("1876-06-01", (tt, SlopeFloat 5%float))])] 1 = Ok dfs ->
        dfs !! 0%nat = Some single_slope_table)
  /\ (forall dfs,
        slope_tables unit (numpy := Np.reference)
          [("1514-1515",
            [("1876-06-01", (tt, SlopeList [1%float; 2%float; 4%float]));
             ("1876-09-01", (tt, SlopeFloat 5%float))])] 1 = Ok dfs ->
        dfs !! 0%nat = Some mixed_slope_table).
Proof.
  destruct slope_statistics_by_period as (Hgeneral & Hsingle & Hmixed).
  assert (Hnd : forall A (a : A), List.NoDup [a])
    by (intros; apply List.NoDup_cons; [intros [] | apply List.NoDup_nil]).
  assert (Hnd2 : forall a b : string, a <> b -> List.NoDup [a; b]).
  { intros a b Hab. apply List.NoDup_cons; [intros [H | []]; by apply Hab | apply Hnd]. }
  split; [| split].
  - destruct (Hgeneral unit Np.reference sample_vertex_pairs 2)
      as (_ & _ & Hok & Htotal); [lia | apply Hnd | |].
    { apply List.Forall_cons; [| apply List.Forall_nil]. by apply Hnd2. }
    destruct Htotal as [dfs Hdfs].
    { intros pair year [<- | []] Hyear.
      assert (Hy : year = 1876 \/ year = 1880).
      { vm_compute in Hyear. destruct Hyear as [<- | [<- | []]]; auto. }
      destruct Hy as [-> | ->]; split; reflexivity. }
    destruct (Hok dfs Hdfs) as [Hlen Hpairs].
    destruct (Hpairs 0%nat "1514-1515" _ eq_refl) as (df & Hdf & _ & _ & Hcells).
    destruct (Hcells 1%nat 1880) as ((mn & Hmn & Cmin) & (mx & Hmx & Cmax) & _ & Cmed & _);
      [reflexivity |].
    exists dfs, df. split; [exact Hdfs |]. split; [exact Hlen |].
    split; [exact Hdf |].
    injection Hmn as <-. injection Hmx as <-.
    split; [exact Cmin |]. split; [exact Cmax | exact Cmed].
  - intros dfs Hdfs.
    apply (Hsingle unit [("1514-1515", [("1876-06-01", (tt, SlopeFloat 5%float))])]
             tt 0%nat "1514-1515" dfs); try assumption.
    + apply Hnd.
    + apply List.Forall_cons; [apply Hnd | apply List.Forall_nil].
    + reflexivity.
  - intros dfs Hdfs.
    apply (Hmixed unit
             [("1514-1515",
               [("1876-06-01", (tt, SlopeList [1%float; 2%float; 4%float]));
                ("1876-09-01", (tt, SlopeFloat 5%float))])]
             tt tt 0%nat "1514-1515" dfs); try assumption.
    + apply Hnd.
    + apply List.Forall_cons; [by apply Hnd2 | apply List.Forall_nil].
    + reflexivity.
Defined.

(** ** File handles *)

Section FileFacts.

Variable Value : Type.
Context {numpy : Numpy}.
Variable sheet_name_ok : string -> bool.
Variable PROJECT_PATH : string.
Variable os_path_join : list string -> string.

Local Abbreviation run :=
  (get_slopes_by_vertex_pairs Value sheet_name_ok PROJECT_PATH os_path_join).
Local Abbreviation json_path := (vertex_pairs_path PROJECT_PATH os_path_join).

Lemma io_bind_run {A B : Type} (m : IO Value A) (k : A -> IO Value B) (w : world Value) :
  io_bind Value m k w
  = match m w with
    | (Ok a, w') => k a w'
    | (Raise e, w') => (Raise e, w')
    end.
Proof. reflexivity. Qed.

Lemma to_excel_handles (writer : nat) (sheet_name : string) (df : DataFrame)
    (w : world Value) :
  handles Value (snd (to_excel Value sheet_name_ok writer sheet_name df w))
  = handles Value w.
Proof.
  unfold to_excel. destruct (handles Value w !! writer); [| reflexivity].
  destruct (sheet_name_ok sheet_name); reflexivity.
Qed.

(** Writing the sheets opens and closes nothing. *)
Lemma write_sheets_handles (writer : nat) (names : list string)
    (sheets : list (nat * DataFrame)) (w : world Value) :
  handles Value
    (snd (io_for_each Value
            (fun '(i, df) =>
               io_bind Value (io_lift Value (list_getitem names i))
                 (fun sheet_name => to_excel Value sheet_name_ok writer sheet_name df))
            sheets w))
  = handles Value w.
Proof.
  revert w. induction sheets as [|[i df] sheets IH]; intros w; [reflexivity |].
  cbn [io_for_each]. unfold io_bind at 1.
  destruct (io_bind _ _ _ w) as [[[]|e] w1] eqn:Hstep.
  - rewrite IH. unfold io_bind, io_lift in Hstep.
    destruct (list_getitem names i) as [sheet_name|e]; [| discriminate].
    pose proof (to_excel_handles writer sheet_name df w) as Hh.
    rewrite Hstep in Hh. exact Hh.
  - cbn [snd]. unfold io_bind, io_lift in Hstep.
    destruct (list_getitem names i) as [sheet_name|e'].
    + pose proof (to_excel_handles writer sheet_name df w) as Hh.
      rewrite Hstep in Hh. exact Hh.
    + by injection Hstep as _ <-.
Qed.

(** The handles left behind when the JSON file exists: either only the
    read handle has been added, or the writer's handle has been added
    and removed as well. *)
Lemma run_handles (folder_name : string) (period : Z) (w : world Value)
    (contents : option (vertex_pairs_json Value)) (left_open : gmap nat string) :
  files Value w !! json_path folder_name = Some contents ->
  handles Value (snd (run folder_name period w)) = left_open ->
  left_open = <[next_handle Value w := json_path folder_name]> (handles Value w)
  \/ left_open
     = delete (S (next_handle Value w))
         (<[S (next_handle Value w) := slopes_workbook_path period]>
            (<[next_handle Value w := json_path folder_name]> (handles Value w))).
Proof.
  intros Hfile Hleft. symmetry in Hleft.
  unfold get_slopes_by_vertex_pairs in Hleft. rewrite io_bind_run in Hleft.
  unfold open_file at 1 in Hleft. rewrite Hfile in Hleft. cbn [new_handle] in Hleft.
  rewrite io_bind_run in Hleft. unfold json_load at 1 in Hleft.
  cbn [handles files] in Hleft. rewrite lookup_insert_eq, Hfile in Hleft.
  destruct contents as [vertex_pairs|]; [| by left].
  rewrite io_bind_run in Hleft. unfold io_lift at 1 in Hleft.
  destruct (slope_tables Value vertex_pairs period) as [dfs|e]; [| by left].
  unfold with_excel_writer in Hleft. cbn [new_handle next_handle] in Hleft.
  match type of Hleft with
  | context [io_for_each Value ?body ?sheets ?w1] =>
      pose proof (write_sheets_handles (S (next_handle Value w))
                    (keys vertex_pairs) sheets w1) as Hh;
      destruct (io_for_each Value body sheets w1) as [r w2]
  end.
  cbn [snd handles] in Hh. cbn [snd close_handle handles] in Hleft.
  rewrite Hh in Hleft. by right.
Qed.

(** C2 (evaluated on the code): when the JSON file exists, the handle
    that [open] returns is still open when the function is left, on
    every path, by a return or by an exception; only the handle of the
    workbook writer, once acquired, is released on every path. *)
Theorem read_handle_never_closed (folder_name : string) (period : Z)
    (w : world Value) :
  match files Value w !! json_path folder_name with
  | None =>
      run folder_name period w = (Raise FileNotFoundError, w)
  | Some _ =>
      handles Value (snd (run folder_name period w)) !! next_handle Value w
      = Some (json_path folder_name)
      /\ (handles Value (snd (run folder_name period w))
          = <[next_handle Value w := json_path folder_name]> (handles Value w)
          \/ handles Value (snd (run folder_name period w))
             = delete (S (next_handle Value w))
                 (<[next_handle Value w := json_path folder_name]> (handles Value w)))
  end.
Proof.
  destruct (files Value w !! json_path folder_name) as [contents|] eqn:Hfile.
  - destruct (run_handles folder_name period w contents _ Hfile eq_refl) as [E | E];
      rewrite E.
    + split; [apply lookup_insert_eq | by left].
    + rewrite delete_insert_eq. split; [| by right].
      rewrite lookup_delete_ne by lia. apply lookup_insert_eq.
  - unfold get_slopes_by_vertex_pairs. rewrite io_bind_run.
    unfold open_file. by rewrite Hfile.
Qed.

End FileFacts.

(** On the sample world a full run succeeds, the JSON file's handle 3 is
    left open and the writer's handle 4 is closed. *)
Lemma sample_run_leaks_read_handle :
  let out :=
    get_slopes_by_vertex_pairs unit (numpy := Np.reference) (fun _ => true) ""
      sample_path "data" 2 sample_world in
  fst out = Ok tt
  /\ handles unit (snd out) !! 3%nat = Some "data/find_edges/vertex_pairs.json"
  /\ handles unit (snd out) !! 4%nat = None.
Proof. vm_compute. repeat split. Qed.

(** * Further properties *)

(** ** Year labels *)

Lemma str_int_inj (a b : Z) : str_int a = str_int b -> a = b.
Proof.
  unfold str_int. intros H.
  assert (Hparse : forall z,
             NilZero.int_of_string (NilZero.string_of_int (Z.to_int z))
             = Some (Z.to_int z)).
  { intros z. apply NilZero.isi; destruct z; simpl; try discriminate;
      intros [= E]; by apply DecimalPos.Unsigned.to_uint_nonnil in E. }
  apply DecimalZ.to_int_inj.
  pose proof (Hparse a) as Ha. rewrite H, Hparse in Ha. by injection Ha.
Qed.

Lemma four_digit_label (n : Z) :
  1000 <= n <= 9999 -> four_chars_no_hyphen (str_int n) = true.
Proof.
  assert (H : forallb (fun n => four_chars_no_hyphen (str_int n)) (range 1000 10000)
              = true) by (vm_compute; reflexivity).
  intros Hn. apply (forallb_range _ _ _ H). lia.
Qed.

Lemma startswith_append (s t : string) : startswith s (s +:+ t) = true.
Proof.
  induction s as [|a s IH]; simpl; [reflexivity |].
  by rewrite Ascii.eqb_refl, IH.
Qed.

Lemma contains_append (s t : string) : contains s (s +:+ t) = true.
Proof.
  destruct (s +:+ t) eqn:E; simpl; rewrite <- E, startswith_append; reflexivity.
Qed.

(** On an ISO date, containing the label of a four-digit year is being
    a date of that year. *)
Lemma contains_year_label (a b : Z) (d : string) :
  1000 <= a <= 9999 -> 1000 <= b <= 9999 ->
  iso_date_in_year a d ->
  contains (str_int b) d = true <-> a = b.
Proof.
  intros Ha Hb (m1 & m2 & d1 & d2 & ->). split.
  - intros Hc.
    destruct (four_chars_no_hyphen_inv _ (four_digit_label a Ha))
      as (a0 & a1 & a2 & a3 & Ea & _).
    destruct (four_chars_no_hyphen_inv _ (four_digit_label b Hb))
      as (b0 & b1 & b2 & b3 & Eb & H0 & H1 & H2 & H3).
    rewrite Ea, Eb in Hc. simpl String.append in Hc.
    apply contains_in_iso_date in Hc; try assumption.
    apply str_int_inj. congruence.
  - intros <-. apply contains_append.
Qed.

Lemma contains_other_year (a b : Z) (d : string) :
  1000 <= a <= 9999 -> 1000 <= b <= 9999 -> a <> b ->
  iso_date_in_year a d -> contains (str_int b) d = false.
Proof.
  intros Ha Hb Hne Hd. apply not_true_iff_false. intros Hc.
  by apply (contains_year_label a b d Ha Hb Hd) in Hc.
Qed.

(** ** Flood waves, year by year *)

Lemma contains_own_year (a : Z) (d : string) :
  iso_date_in_year a d -> contains (str_int a) d = true.
Proof. intros (m1 & m2 & d1 & d2 & ->). apply contains_append. Qed.

(** On branches dated inside the widened window the substring filter is
    a filter on years. *)
Lemma starts_in_year_iso (y : Z) (b : branch) :
  1876 <= y <= 2019 -> dated_in_window y b ->
  starts_in_year y b = true <->
  Forall (fun n => ~ iso_date_in_year (y - 1) (snd n)) b
  /\ Exists (fun n => iso_date_in_year y (snd n)) b.
Proof.
  intros Hy Hw. rewrite starts_in_year_true.
  unfold dated_in_window in Hw.
  rewrite List.Forall_forall in Hw. rewrite !List.Forall_forall, !List.Exists_exists.
  split.
  - intros [Hprev (n & Hn & Hnext)]. split.
    + intros n' Hn' Hiso. apply contains_own_year in Hiso.
      specialize (Hprev n' Hn'). congruence.
    + exists n. split; [exact Hn |].
      destruct (Hw n Hn) as [Hiso | [Hiso | Hiso]]; [| exact Hiso |].
      * apply contains_own_year in Hiso. specialize (Hprev n Hn). congruence.
      * apply contains_own_year in Hiso. congruence.
  - intros [Hprev (n & Hn & Hiso)]. split.
    + intros n' Hn'.
      destruct (Hw n' Hn') as [H | [H | H]].
      * exfalso. by apply (Hprev n' Hn').
      * apply (contains_other_year y (y - 1)); [lia | lia | lia | exact H].
      * apply (contains_other_year (y + 1) (y - 1)); [lia | lia | lia | exact H].
    + exists n. split; [exact Hn |].
      apply (contains_other_year y (y + 1)); [lia | lia | lia | exact Hiso].
Qed.

Section FloodWavesMore.

Variables Graph GaugePairs : Type.
Variable create_directed_graph : string -> string -> GaugePairs -> string -> Graph.
Variable get_branching : Graph -> list branch.

Local Abbreviation flood_waves :=
  (get_flood_waves_yearly Graph GaugePairs create_directed_graph get_branching).
Local Abbreviation branches_of :=
  (window_branches Graph GaugePairs create_directed_graph get_branching).
Local Abbreviation number_of_flood_waves :=
  (get_number_of_flood_waves_yearly Graph GaugePairs create_directed_graph
     get_branching).

(** X1: the yearly counts are 144 numbers, the one of year i at position
    i - 1876; it is the number of branches of the widened window of i
    that pass the year filter, hence between 0 and the number of
    branches of that window. *)
Theorem number_of_flood_waves_spec (gp : GaugePairs) (folder : string) :
  length (number_of_flood_waves gp folder) = 144%nat
  /\ forall i : Z, 1876 <= i <= 2019 ->
       exists n : Z,
         number_of_flood_waves gp folder !! Z.to_nat (i - 1876) = Some n
         /\ n = Z.of_nat (length (flood_waves i gp folder))
         /\ n = Z.of_nat (length (List.filter (starts_in_year i) (branches_of i gp folder)))
         /\ 0 <= n <= Z.of_nat (length (branches_of i gp folder)).
Proof.
  assert (E : number_of_flood_waves gp folder
              = map (fun i => Z.of_nat (length (flood_waves i gp folder)))
                    (range 1876 2020)).
  { unfold get_number_of_flood_waves_yearly.
    by rewrite (fold_left_append_map _
                  (fun i => Z.of_nat (length (flood_waves i gp folder)))). }
  split; [by rewrite E, length_map, length_range |].
  intros i Hi. exists (Z.of_nat (length (flood_waves i gp folder))).
  split; [| split; [reflexivity | split]].
  - rewrite E. rewrite (lookup_map _ _ _ i); [reflexivity |].
    rewrite lookup_range by lia. f_equal. lia.
  - by rewrite get_flood_waves_yearly_filter.
  - rewrite get_flood_waves_yearly_filter.
    pose proof (filter_length_le (starts_in_year i) (branches_of i gp folder)). lia.
Qed.

(** X2: for a year of the dataset, a branch whose node dates are ISO
    dates of the target year or its neighbours is returned exactly when
    it belongs to the decomposition, has no node dated in the previous
    year and has a node dated in the target year. *)
Theorem flood_waves_by_year_of_date (y : Z) (gp : GaugePairs) (folder : string)
    (b : branch) :
  1876 <= y <= 2019 -> dated_in_window y b ->
  In b (flood_waves y gp folder) <->
  In b (branches_of y gp folder)
  /\ Forall (fun n => ~ iso_date_in_year (y - 1) (snd n)) b
  /\ Exists (fun n => iso_date_in_year y (snd n)) b.
Proof.
  intros Hy Hw. rewrite get_flood_waves_yearly_filter, filter_In.
  by rewrite (starts_in_year_iso y b Hy Hw).
Qed.

(** X3: a branch dated inside the widened window of a year and returned
    for that year is not returned for the following year, whatever the
    decomposition of the following year's window: the overlap of the two
    windows counts no flood wave twice. *)
Theorem flood_wave_not_counted_twice (y : Z) (gp : GaugePairs) (folder : string)
    (b : branch) :
  1876 <= y <= 2018 -> dated_in_window y b ->
  In b (flood_waves y gp folder) -> ~ In b (flood_waves (y + 1) gp folder).
Proof.
  intros Hy Hw Hin Hnext.
  rewrite get_flood_waves_yearly_filter, filter_In in Hin.
  destruct Hin as [_ Hin].
  apply (starts_in_year_iso y b ltac:(lia) Hw) in Hin as [_ Hex].
  rewrite get_flood_waves_yearly_filter, filter_In in Hnext.
  destruct Hnext as [_ Hnext]. apply starts_in_year_true in Hnext as [Hprev _].
  apply List.Exists_exists in Hex as (n & Hn & Hiso).
  rewrite List.Forall_forall in Hprev. specialize (Hprev n Hn).
  replace (y + 1 - 1) with y in Hprev by lia.
  apply contains_own_year in Hiso. congruence.
Qed.

(** X4: whatever the year, the function returns a sub-sequence of the
    branch decomposition (same order, nothing added) and never a branch
    without nodes. *)
Theorem flood_waves_sublist (y : Z) (gp : GaugePairs) (folder : string) :
  sublist
    (get_flood_waves_yearly Graph GaugePairs create_directed_graph get_branching
       y gp folder)
    (window_branches Graph GaugePairs create_directed_graph get_branching y gp folder)
  /\ ~ In [] (get_flood_waves_yearly Graph GaugePairs create_directed_graph
                get_branching y gp folder).
Proof.
  rewrite get_flood_waves_yearly_filter. split.
  - induction (branches_of y gp folder) as [|b l IH]; simpl; [constructor |].
    destruct (starts_in_year y b); [by apply sublist_skip | by apply sublist_cons].
  - intros Hin. apply filter_In in Hin as [_ Hk]. discriminate Hk.
Qed.

End FloodWavesMore.

(** ** Loops and lookups that raise *)

Lemma for_each_app {A B : Type} (body : A -> B -> result A) (l1 l2 : list B) (acc : A) :
  for_each body (l1 ++ l2) acc = bind (for_each body l1 acc) (for_each body l2).
Proof.
  revert acc. induction l1 as [|b l1 IH]; intros acc; simpl; [reflexivity |].
  destruct (body acc b); simpl; [apply IH | reflexivity].
Qed.

Lemma range_split (a b i : Z) :
  a <= i < b -> range a b = range a i ++ i :: range (i + 1) b.
Proof.
  intros Hi. unfold range.
  replace (b - a) with ((i - a) + (b - i)) by lia.
  rewrite seqZ_app by lia. f_equal.
  replace (a + (i - a)) with i by lia.
  rewrite seqZ_cons by lia. f_equal. f_equal; lia.
Qed.

Lemma extend_colors_raises (dct : gmap string (list string)) (gauges : list gauge)
    (colors : list string) (e : exn) :
  extend_colors dct gauges colors = Raise e -> e = KeyError.
Proof.
  revert colors. induction gauges as [|g rest IH]; intros colors; simpl.
  - discriminate.
  - unfold lookup_key. destruct (dct !! str g); simpl; [apply IH | congruence].
Qed.

Lemma extend_colors_missing (dct : gmap string (list string)) (gauges : list gauge)
    (colors : list string) (g : gauge) :
  In g gauges -> dct !! str g = None ->
  extend_colors dct gauges colors = Raise KeyError.
Proof.
  intros Hin Hg.
  destruct (extend_colors dct gauges colors) as [c|e] eqn:E.
  - apply extend_colors_ok in E as [_ Hcl].
    destruct (Hcl g Hin) as [cs Hcs]. congruence.
  - by rewrite (extend_colors_raises _ _ _ _ E).
Qed.

Lemma count_app (x : string) (l1 l2 : list string) :
  count x (l1 ++ l2) = count x l1 + count x l2.
Proof. induction l1 as [|y l1 IH]; simpl; [reflexivity | rewrite IH; lia]. Qed.

Lemma count_node_colors (x : string) (dct : gmap string (list string))
    (gauges : list gauge) :
  count x (node_colors dct gauges)
  = sum_Z (map (fun g => count x (gauge_colors dct g)) gauges).
Proof.
  unfold node_colors. induction gauges as [|g rest IH]; simpl; [reflexivity |].
  by rewrite count_app, IH.
Qed.

(** ** Yearly aggregation, beyond the table's shape *)

Section AggregationMore.

Variables Graph GaugePairs RiverKms Component : Type.
Variable create_directed_graph : string -> string -> GaugePairs -> string -> Graph.
Variable calculate_all_velocities : RiverKms -> Graph -> list float.
Variable get_node_colors_in_given_period :
  list gauge -> string -> string -> string -> gmap string (list string).
Variable weakly_connected_components : Graph -> list Component.
Context {numpy : Numpy}.

Local Abbreviation moving_average :=
  (yearly_mean_moving_average Graph GaugePairs RiverKms create_directed_graph
     calculate_all_velocities).
Local Abbreviation colors_of := (year_classification get_node_colors_in_given_period).
Local Abbreviation step :=
  (statistics_step Graph GaugePairs RiverKms Component create_directed_graph
     calculate_all_velocities get_node_colors_in_given_period
     weakly_connected_components).
Local Abbreviation statistics :=
  (get_statistics Graph GaugePairs RiverKms Component create_directed_graph
     calculate_all_velocities get_node_colors_in_given_period
     weakly_connected_components).
Local Abbreviation computable :=
  (year_computable Graph GaugePairs RiverKms create_directed_graph
     calculate_all_velocities get_node_colors_in_given_period).
Local Abbreviation ratio_of := (period_ratio get_node_colors_in_given_period).
Local Abbreviation ratio_table := (red_ratio get_node_colors_in_given_period).
Local Abbreviation period_colors :=
  (period_classification get_node_colors_in_given_period).
Local Abbreviation low_high := (low_high_by_gauge_yearly get_node_colors_in_given_period).

(** X5: whatever the window length, the moving average has
    max(0, 144 - L) elements; from L = 144 on it is the empty list. *)
Theorem moving_average_length (river_kms : RiverKms) (gp : GaugePairs)
    (folder : string) (L : Z) :
  length (yearly_mean_moving_average Graph GaugePairs RiverKms create_directed_graph
            calculate_all_velocities river_kms gp folder L)
  = Z.to_nat (144 - L)
  /\ (144 <= L ->
      yearly_mean_moving_average Graph GaugePairs RiverKms create_directed_graph
        calculate_all_velocities river_kms gp folder L = []).
Proof.
  assert (E : moving_average river_kms gp folder L
              = map (window_mean_velocity Graph GaugePairs RiverKms
                       create_directed_graph calculate_all_velocities
                       river_kms gp folder L)
                    (range (1876 + L) 2020)).
  { unfold yearly_mean_moving_average.
    by rewrite (fold_left_append_map _
                  (window_mean_velocity Graph GaugePairs RiverKms
                     create_directed_graph calculate_all_velocities
                     river_kms gp folder L)). }
  split.
  - rewrite E, length_map, length_range. f_equal. lia.
  - intros HL. rewrite E. unfold range. by rewrite seqZ_nil by lia.
Qed.

Lemma statistics_step_computable (rk : RiverKms) (g : list gauge) (gp : GaugePairs)
    (f : string) (acc acc' : stats_lists) (i : Z) :
  step rk g gp f acc i = Ok acc' -> computable rk g gp f i.
Proof.
  unfold statistics_step. intros H.
  apply bind_ok_inv in H as (c & Hc & H).
  apply extend_colors_ok in Hc as [_ Hcl].
  apply bind_ok_inv in H as (mn & Hmn & H).
  apply bind_ok_inv in H as (mx & Hmx & _).
  split; [exact Hcl |].
  unfold year_velocities, year_graph, first_day, last_day.
  by rewrite Hmn, Hmx.
Qed.

Lemma statistics_loop_computable (rk : RiverKms) (g : list gauge) (gp : GaugePairs)
    (f : string) (l : list Z) (acc acc' : stats_lists) :
  for_each (step rk g gp f) l acc = Ok acc' ->
  forall i, In i l -> computable rk g gp f i.
Proof.
  revert acc. induction l as [|j l IH]; intros acc H i []; subst.
  - simpl in H. apply bind_ok_inv in H as (acc1 & H1 & _).
    by apply statistics_step_computable in H1.
  - simpl in H. apply bind_ok_inv in H as (acc1 & _ & H). by apply (IH acc1).
Qed.

(** X6: the statistics table is returned exactly when every year of the
    dataset can be computed: every gauge is a key of the year's
    classification and the year's velocities have a minimum and a
    maximum. *)
Theorem get_statistics_returns_iff (rk : RiverKms) (g : list gauge) (gp : GaugePairs)
    (f : string) :
  (exists df, statistics rk g gp f = Ok df)
  <-> (forall i : Z, 1876 <= i <= 2019 -> computable rk g gp f i).
Proof.
  split; [| apply get_statistics_total].
  intros [df Hdf] i Hi. unfold get_statistics in Hdf.
  apply bind_ok_inv in Hdf as (acc & Hloop & _).
  apply (statistics_loop_computable rk g gp f _ _ _ Hloop).
  apply in_range. lia.
Qed.

(** X7: when the years before year i can be computed and some gauge of
    the list is no key of the classification of year i, the statistics
    table is not returned: the lookup raises KeyError. *)
Theorem get_statistics_missing_gauge (rk : RiverKms) (g : list gauge)
    (gp : GaugePairs) (f : string) (i : Z) (missing : gauge) :
  1876 <= i <= 2019 ->
  (forall j : Z, 1876 <= j < i -> computable rk g gp f j) ->
  In missing g -> colors_of g f i !! str missing = None ->
  statistics rk g gp f = Raise KeyError.
Proof.
  intros Hi Hbefore Hin Hmiss. unfold get_statistics.
  rewrite (range_split 1876 2020 i) by lia. rewrite for_each_app.
  destruct (statistics_loop_total Graph GaugePairs RiverKms Component
              create_directed_graph calculate_all_velocities
              get_node_colors_in_given_period weakly_connected_components
              rk g gp f (range 1876 i) stats_empty) as [acc ->].
  { intros j Hj. apply Hbefore. by apply in_range in Hj. }
  cbn [bind for_each]. unfold statistics_step at 1.
  unfold year_classification, first_day, last_day in Hmiss.
  by rewrite (extend_colors_missing _ g [] missing Hin Hmiss).
Qed.


(** X9: a period longer than the 144 years of the dataset, or a
    negative one, gives the ratio table without rows, whatever the
    gauges and their classification, as long as the period is an int64
    for which 1876 + period - 1 does not leave the int64 range:
    144 < period <= 2^63 - 1876 or -2^63 <= period < 0. *)
Theorem red_ratio_no_period (g : list gauge) (f : string) (period : Z) :
  144 < period <= 9223372036854773932 \/ -9223372036854775808 <= period < 0 ->
  ratio_table g f period
  = Ok {| df_index := []; df_columns := [("ratio", [])] |}.
Proof.
  intros [HP | HP].
  - rewrite (red_ratio_periods get_node_colors_in_given_period g f period)
      by lia.
    unfold complete_periods. rewrite Z.div_small by lia. reflexivity.
  - unfold red_ratio, Np.arange.
    destruct (Z.eqb_spec period 0); [lia |].
    rewrite seqZ_nil; [reflexivity |].
    pose proof (Z.div_mod (1876 - 2020) period ltac:(lia)).
    pose proof (Z.mod_neg_bound (1876 - 2020) period ltac:(lia)).
    nia.
Qed.

End AggregationMore.

(** ** The periods of the periodic loops *)

(** X10: for a period length P of at least one year, the periods that
    the loops of [red_ratio] and [get_slopes_by_vertex_pairs] do not
    leave by [break] never overlap and cover exactly the years 1876 to
    1875 + P * floor(144 / P): the last 144 mod P years of the dataset
    belong to no period. *)
Theorem periods_partition (P : Z) (years : list Z) :
  1 <= P ->
  Np.arange 1876 2020 P = Ok years ->
  (forall y : Z,
     (exists start, In start years /\ (start + P - 1 >? 2019) = false
                    /\ start <= y <= start + P - 1)
     <-> 1876 <= y <= 1875 + P * (144 / P))
  /\ (forall y s1 s2 : Z,
        In s1 years -> In s2 years ->
        s1 <= y <= s1 + P - 1 -> s2 <= y <= s2 + P - 1 -> s1 = s2).
Proof.
  intros HP Hyears.
  assert (Hq : P * (144 / P) <= 144 < P * (144 / P + 1)).
  { pose proof (Z.div_mod 144 P ltac:(lia)).
    pose proof (Z.mod_pos_bound 144 P ltac:(lia)). lia. }
  assert (Hin : forall s, In s years -> exists k, 0 <= k /\ s = 1876 + k * P).
  { unfold Np.arange in Hyears. destruct (P =? 0); [discriminate |].
    injection Hyears as <-. intros s Hs.
    apply in_map_iff in Hs as (k & <- & Hk).
    apply list_elem_of_In, elem_of_seqZ in Hk. exists k. split; [lia | reflexivity]. }
  destruct (arange_periods P HP) as (rest & Hyears' & _ & Hrest).
  rewrite Hyears in Hyears'. injection Hyears' as ->.
  split.
  - intros y. split.
    + intros (start & Hs & Hend & Hy).
      destruct (Hin start Hs) as (k & Hk & ->).
      rewrite Z.gtb_ltb, Z.ltb_ge in Hend.
      assert (k + 1 <= 144 / P) by (apply Z.div_le_lower_bound; nia).
      nia.
    + intros Hy. exists (1876 + (y - 1876) / P * P).
      pose proof (Z.div_mod (y - 1876) P ltac:(lia)).
      pose proof (Z.mod_pos_bound (y - 1876) P ltac:(lia)).
      assert (0 <= (y - 1876) / P < 144 / P).
      { split; [apply Z.div_pos; lia |].
        apply Z.div_lt_upper_bound; nia. }
      split; [| split].
      * apply in_or_app. left. apply in_complete_periods.
        exists ((y - 1876) / P). split; [assumption | reflexivity].
      * rewrite Z.gtb_ltb, Z.ltb_ge. nia.
      * nia.
  - intros y s1 s2 H1 H2 Hy1 Hy2.
    destruct (Hin s1 H1) as (k1 & _ & ->). destruct (Hin s2 H2) as (k2 & _ & ->).
    assert (k1 = k2) by nia. by subst.
Qed.

(** ** The low/high grid and the number of gauges *)

Lemma fill_year_app (dct : gmap string (list string)) (i : Z) (g1 g2 : list gauge)
    (k : Z) (m : list (list float)) :
  fill_year dct i (g1 ++ g2) k m
  = bind (fill_year dct i g1 k m)
         (fill_year dct i g2 (k + Z.of_nat (length g1))).
Proof.
  revert k m. induction g1 as [|g g1 IH]; intros k m.
  - simpl. by rewrite Z.add_0_r.
  - cbn [app fill_year length].
    destruct (lookup_key dct (str g)) as [cs|e]; [| reflexivity]. cbn [bind].
    destruct (Np.setitem2 m _ _ _) as [m1|e]; [| reflexivity]. cbn [bind].
    destruct (Np.setitem2 m1 _ _ _) as [m2|e]; [| reflexivity]. cbn [bind].
    rewrite IH. do 2 f_equal. lia.
Qed.

Lemma setitem2_column_out (m : list (list float)) (r : nat) (row : list float)
    (c : Z) (v : float) :
  m !! r = Some row -> Z.of_nat (length row) <= c ->
  Np.setitem2 m (Z.of_nat r) c v = Raise IndexError.
Proof.
  intros Hrow Hc. pose proof (lookup_lt_Some _ _ _ Hrow) as Hr.
  unfold Np.setitem2, Np.axis_index.
  destruct (Z.leb_spec 0 (Z.of_nat r)); [| lia].
  destruct (Z.ltb_spec (Z.of_nat r) (Z.of_nat (length m))); [| lia].
  cbn [andb bind]. rewrite Nat2Z.id, Hrow.
  destruct (Z.ltb_spec c (Z.of_nat (length row))); [lia |].
  rewrite andb_false_r.
  destruct (Z.ltb_spec c 0); [lia |]. by rewrite andb_false_r.
Qed.

(** A gauge whose low column would lie beyond the row raises. *)
Lemma fill_year_overflow (dct : gmap string (list string)) (i : Z) (g : gauge)
    (rest : list gauge) (k : Z) (m : list (list float)) (r : nat) (row : list float) :
  is_Some (dct !! str g) ->
  m !! r = Some row -> i - 1876 = Z.of_nat r ->
  Z.of_nat (length row) <= 2 * k - 2 ->
  fill_year dct i (g :: rest) k m = Raise IndexError.
Proof.
  intros [cs Hcs] Hrow Hi Hk. cbn [fill_year]. unfold lookup_key. rewrite Hcs.
  cbn [bind]. rewrite Hi.
  by rewrite (setitem2_column_out m r row).
Qed.

Section LowHighMore.

Variable get_node_colors_in_given_period :
  list gauge -> string -> string -> string -> gmap string (list string).

Local Abbreviation colors_of := (year_classification get_node_colors_in_given_period).
Local Abbreviation low_high := (low_high_by_gauge_yearly get_node_colors_in_given_period).
Local Abbreviation year_step := (low_high_step get_node_colors_in_given_period).

Lemma low_high_step_short (g : list gauge) (f : string) (ys : list Z)
    (m : list (list float)) (i : Z) (r : nat) :
  (length g <= 14)%nat ->
  classifies (colors_of g f i) g ->
  m !! r = Some (replicate 28 0%float) ->
  i - 1876 = Z.of_nat r ->
  year_step g f (ys, m) i
  = Ok (ys ++ [i],
        <[r := low_high_cells (colors_of g f i) g
               ++ replicate (28 - 2 * length g) 0%float]> m).
Proof.
  intros Hg Hcl Hrow Hi. unfold low_high_step.
  rewrite (fill_year_row _ i g 1 m r [] (replicate 28 0%float));
    try assumption; try reflexivity.
  - cbn [bind app]. by rewrite drop_replicate.
  - rewrite length_replicate. lia.
Qed.

Lemma low_high_loop_short (g : list gauge) (f : string) (n : nat) (start : Z)
    (ys : list Z) (done : list (list float)) :
  (length g <= 14)%nat ->
  (forall i, start <= i < start + Z.of_nat n -> classifies (colors_of g f i) g) ->
  start - 1876 = Z.of_nat (length done) ->
  for_each (year_step g f) (seqZ start (Z.of_nat n))
           (ys, done ++ replicate n (replicate 28 0%float))
  = Ok (ys ++ seqZ start (Z.of_nat n),
        done ++ map (fun i => low_high_cells (colors_of g f i) g
                              ++ replicate (28 - 2 * length g) 0%float)
                    (seqZ start (Z.of_nat n))).
Proof.
  intros Hg. revert start ys done.
  induction n as [|n IH]; intros start ys done Hcl Hstart.
  - simpl. by rewrite !app_nil_r.
  - rewrite seqZ_cons by lia.
    replace (Z.pred (Z.of_nat (S n))) with (Z.of_nat n) by lia.
    set (zero_row := replicate 28 0%float).
    cbn [for_each replicate]. subst zero_row.
    rewrite (low_high_step_short g f ys _ start (length done)); try assumption.
    + cbn [bind]. rewrite insert_after.
      rewrite (cons_middle _ done), app_assoc.
      rewrite (IH (Z.succ start) (ys ++ [start])
                 (done ++ [low_high_cells (colors_of g f start) g
                           ++ replicate (28 - 2 * length g) 0%float])).
      * cbn [map]. rewrite <- !app_assoc. reflexivity.
      * intros i Hi. apply Hcl. lia.
      * rewrite length_app. simpl. lia.
    + apply Hcl. lia.
    + apply list_lookup_middle. reflexivity.
Qed.

(** X11: with every gauge classified in every year, the low/high grid
    is returned only for exactly 14 gauges: a shorter list leaves the
    144 x 28 array wider than the column headers and the table
    constructor raises ValueError; a longer list writes the fifteenth
    gauge's cells at column 28 of the first year and the array raises
    IndexError. *)
Theorem low_high_only_fourteen_gauges (g : list gauge) (f : string) :
  (forall i, 1876 <= i <= 2019 -> classifies (colors_of g f i) g) ->
  ((length g < 14)%nat -> low_high g f = Raise ValueError)
  /\ ((14 < length g)%nat -> low_high g f = Raise IndexError)
  /\ ((exists df, low_high g f = Ok df) <-> length g = 14%nat).
Proof.
  intros Hcl.
  assert (Hshort : (length g < 14)%nat -> low_high g f = Raise ValueError).
  { intros Hg. unfold low_high_by_gauge_yearly.
    change (range 1876 2020) with (seqZ 1876 (Z.of_nat 144)).
    change (Np.zeros 144 28) with ([] ++ replicate 144 (replicate 28 0%float)).
    rewrite (low_high_loop_short g f 144 1876 [] []);
      [| lia | intros i Hi; apply Hcl; lia | reflexivity].
    cbn [bind app]. rewrite low_high_columns_headers. unfold of_matrix.
    rewrite seqZ_cons by lia. cbn [map forallb].
    rewrite length_app, length_low_high_cells, length_replicate,
      length_low_high_headers.
    destruct (Nat.eqb_spec (2 * length g + (28 - 2 * length g)) (2 * length g));
      [lia |].
    cbn [andb]. by rewrite andb_false_r. }
  assert (Hlong : (14 < length g)%nat -> low_high g f = Raise IndexError).
  { intros Hg. unfold low_high_by_gauge_yearly.
    rewrite (range_split 1876 2020 1876) by lia.
    change (range 1876 1876) with (@nil Z). cbn [app for_each].
    unfold low_high_step at 1.
    rewrite <- (take_drop 14 g) at 2.
    destruct (drop 14 g) as [|g15 rest] eqn:Hdrop.
    { apply (f_equal length) in Hdrop. rewrite length_drop in Hdrop.
      simpl in Hdrop. lia. }
    assert (Hcl0 : classifies (colors_of g f 1876) g) by (apply Hcl; lia).
    unfold year_classification, first_day, last_day in Hcl0.
    rewrite fill_year_app.
    rewrite (fill_year_row _ 1876 (take 14 g) 1 _ 0 [] (replicate 28 0%float)).
    - cbn [bind].
      rewrite (fill_year_overflow _ 1876 g15 rest _ _ 0
                 ([] ++ low_high_cells
                          (get_node_colors_in_given_period g f
                             (str_int 1876 +:+ "-01-01") (str_int 1876 +:+ "-12-31"))
                          (take 14 g)
                  ++ drop (2 * length (take 14 g)) (replicate 28 0%float)));
        [reflexivity | | | reflexivity |].
      + apply Hcl0. rewrite <- (take_drop 14 g), Hdrop.
        apply in_or_app. right. by left.
      + apply list_lookup_insert_eq.
        change (length (Np.zeros 144 28)) with 144%nat. lia.
      + rewrite length_take_le by lia. cbn [app].
        rewrite length_app, length_low_high_cells, length_take_le by lia.
        simpl. lia.
    - intros g' Hin. apply Hcl0.
      rewrite <- (take_drop 14 g). apply in_or_app. by left.
    - reflexivity.
    - reflexivity.
    - reflexivity.
    - rewrite length_take_le by lia. rewrite length_replicate. lia. }
  split; [exact Hshort |]. split; [exact Hlong |]. split.
  - intros [df Hdf].
    destruct (Nat.lt_trichotomy (length g) 14) as [H | [H | H]]; [| exact H |].
    + rewrite (Hshort H) in Hdf. discriminate.
    + rewrite (Hlong H) in Hdf. discriminate.
  - intros Hg. eexists. by apply low_high_ok.
Qed.

End LowHighMore.

(** ** The yearly counts and the per-gauge grid *)

Lemma low_high_frame_cell (colors : Z -> gmap string (list string)) (g : list gauge)
    (y : Z) (k : nat) (gauge_k : gauge) :
  length g = 14%nat -> 1876 <= y <= 2019 -> g !! k = Some gauge_k ->
  let grid :=
    {| df_index := map LInt dataset_years;
       df_columns :=
         imap (fun j name =>
                 (name,
                  map (fun row => CFloat (nth j row 0%float))
                      (map (fun i => low_high_cells (colors i) g) dataset_years)))
              (low_high_headers g) |} in
  iat grid (Z.to_nat (y - 1876)) (2 * k)
  = Some (CFloat (float_of_int (count "yellow" (gauge_colors (colors y) gauge_k))))
  /\ iat grid (Z.to_nat (y - 1876)) (2 * k + 1)
     = Some (CFloat (float_of_int (count "red" (gauge_colors (colors y) gauge_k)))).
Proof.
  intros Hg Hy Hk grid. subst grid.
  destruct (lookup_low_high_cells (colors y) g k gauge_k Hk) as [Hlow Hhigh].
  pose proof (lookup_lt_Some _ _ _ Hk) as Hlt. rewrite Hg in Hlt.
  assert (Hhead : forall c, (c < 28)%nat ->
                    exists name, low_high_headers g !! c = Some name).
  { intros c Hc. apply lookup_lt_is_Some.
    rewrite length_low_high_headers, Hg. exact Hc. }
  unfold iat. cbn [df_columns]. rewrite !list_lookup_imap.
  destruct (Hhead (2 * k)%nat) as [n1 ->]; [lia |].
  destruct (Hhead (2 * k + 1)%nat) as [n2 ->]; [lia |].
  cbn [fmap option_fmap option_map]. split.
  - erewrite lookup_map; [| apply lookup_map, lookup_dataset_year, Hy].
    by erewrite nth_lookup_Some.
  - erewrite lookup_map; [| apply lookup_map, lookup_dataset_year, Hy].
    by erewrite nth_lookup_Some.
Qed.

Section CountsAndGrid.

Variables Graph GaugePairs RiverKms Component : Type.
Variable create_directed_graph : string -> string -> GaugePairs -> string -> Graph.
Variable calculate_all_velocities : RiverKms -> Graph -> list float.
Variable get_node_colors_in_given_period :
  list gauge -> string -> string -> string -> gmap string (list string).
Variable weakly_connected_components : Graph -> list Component.
Context {numpy : Numpy}.

Local Abbreviation colors_of := (year_classification get_node_colors_in_given_period).
Local Abbreviation statistics :=
  (get_statistics Graph GaugePairs RiverKms Component create_directed_graph
     calculate_all_velocities get_node_colors_in_given_period
     weakly_connected_components).
Local Abbreviation low_high := (low_high_by_gauge_yearly get_node_colors_in_given_period).

(** X12: for 14 gauges, whenever the statistics table is returned the
    low/high grid is returned too, and in every year the low and the
    high count of the statistics table are the sums, over the gauges of
    the list, of the counts that the grid holds in the gauge's low and
    high column. *)
Theorem statistics_counts_sum_grid (rk : RiverKms) (g : list gauge) (gp : GaugePairs)
    (f : string) (df : DataFrame) :
  length g = 14%nat ->
  statistics rk g gp f = Ok df ->
  exists grid,
    low_high g f = Ok grid
    /\ forall i : Z, 1876 <= i <= 2019 ->
         iat df (Z.to_nat (i - 1876)) 2
         = Some (CInt (sum_Z (map (fun gauge_k =>
                                     count "yellow" (gauge_colors (colors_of g f i) gauge_k))
                                  g)))
         /\ iat df (Z.to_nat (i - 1876)) 3
            = Some (CInt (sum_Z (map (fun gauge_k =>
                                        count "red" (gauge_colors (colors_of g f i) gauge_k))
                                     g)))
         /\ forall (k : nat) (gauge_k : gauge), g !! k = Some gauge_k ->
              iat grid (Z.to_nat (i - 1876)) (2 * k)
              = Some (CFloat (float_of_int
                                (count "yellow" (gauge_colors (colors_of g f i) gauge_k))))
              /\ iat grid (Z.to_nat (i - 1876)) (2 * k + 1)
                 = Some (CFloat (float_of_int
                                   (count "red" (gauge_colors (colors_of g f i) gauge_k)))).
Proof.
  intros Hg Hdf.
  assert (Hcl : forall i, 1876 <= i <= 2019 -> classifies (colors_of g f i) g).
  { intros i Hi. pose proof Hdf as Hloop. unfold get_statistics in Hloop.
    apply bind_ok_inv in Hloop as (acc & Hloop & _).
    apply (statistics_loop_computable Graph GaugePairs RiverKms Component
             create_directed_graph calculate_all_velocities
             get_node_colors_in_given_period weakly_connected_components
             rk g gp f _ _ _ Hloop i).
    apply in_range. lia. }
  eexists. split; [by apply low_high_ok |].
  intros i Hi.
  apply get_statistics_ok in Hdf as (acc & -> & _ & _ & F3 & F4 & _).
  pose proof (lookup_dataset_year i Hi) as Hy.
  split; [| split].
  - eapply statistics_cell; [reflexivity |]. rewrite F3.
    apply lookup_map. rewrite <- count_node_colors. by erewrite lookup_map.
  - eapply statistics_cell; [reflexivity |]. rewrite F4.
    apply lookup_map. rewrite <- count_node_colors. by erewrite lookup_map.
  - intros k gauge_k Hk.
    by apply (low_high_frame_cell (fun i => colors_of g f i) g i k gauge_k).
Qed.

End CountsAndGrid.

(** ** Slope tables, beyond their rows *)

Section SlopesMore.

Variable Value : Type.
Context {numpy : Numpy}.

Local Abbreviation json := (vertex_pairs_json Value).
Local Abbreviation pool_of := (period_pool Value).
Local Abbreviation dated_periods := (periods_with_dates Value).
Local Abbreviation loop := (slopes_loop Value).
Local Abbreviation table_of_pair := (slopes_of_pair Value).
Local Abbreviation tables := (slope_tables Value).

Lemma pool_statistics_is_ok (pool : list float) :
  is_ok (pool_statistics pool) = true
  <-> is_ok (np_min pool) = true /\ is_ok (np_max pool) = true.
Proof.
  unfold pool_statistics.
  destruct (np_min pool); cbn [bind is_ok]; [| intuition discriminate].
  destruct (np_max pool); cbn [bind is_ok]; intuition discriminate.
Qed.

(** X13: for a period length of at least one year the tables are
    returned exactly when, for every pair, the pool of every complete
    period with a recorded date has a minimum and a maximum; a pool for
    which [np.min] or [np.max] raises makes the whole operation fail. *)
Theorem slope_tables_returns_iff (vp : json) (P : Z) :
  1 <= P ->
  List.NoDup (keys vp) ->
  Forall (fun pair => List.NoDup (keys (snd pair))) vp ->
  (exists dfs, tables vp P = Ok dfs)
  <-> (forall pair year,
         In pair vp -> In year (dated_periods (snd pair) P) ->
         is_ok (np_min (pool_of (snd pair) year P)) = true
         /\ is_ok (np_max (pool_of (snd pair) year P)) = true).
Proof.
  intros HP Hnd Hdates. split; [| by apply slope_tables_total].
  intros [dfs Hdfs] pair year Hpair Hyear.
  rewrite (slope_tables_pairs Value vp P HP Hnd Hdates) in Hdfs.
  apply map_result_ok in Hdfs. symmetry in Hdfs.
  apply list_elem_of_In, list_elem_of_lookup in Hpair as [i Hi].
  destruct (lookup_map_ok _ _ _ _ _ Hdfs Hi) as (df & _ & Edf).
  apply bind_ok_inv in Edf as (rows & Hrows & _).
  unfold period_rows in Hrows. apply map_result_ok in Hrows. symmetry in Hrows.
  apply list_elem_of_In, list_elem_of_lookup in Hyear as [k Hk].
  destruct (lookup_map_ok _ _ _ _ _ Hrows Hk) as (row & _ & Erow).
  apply pool_statistics_is_ok. by rewrite Erow.
Qed.

Lemma slopes_loop_break (vp : json) (vtx : string) (P : Z) (rest : list Z)
    (acc : slope_lists) :
  Forall (fun year => year + P - 1 > 2019) rest ->
  loop vp vtx P rest acc = Ok acc.
Proof.
  intros [|year rest' Hyear _]; simpl; [reflexivity |].
  destruct (Z.gtb_spec (year + P - 1) 2019); [reflexivity | lia].
Qed.

(** X14: with a period longer than the 144 years of the dataset, or a
    negative one, every vertex pair gets a table without rows, whatever
    its dates and slopes: no statistic is computed and nothing raises. *)
Theorem slope_tables_no_period (vp : json) (P : Z) :
  144 < P \/ P < 0 ->
  tables vp P = Ok (map (fun _ => slopes_frame [] []) vp).
Proof.
  intros HP.
  assert (Hyears : exists rest,
             Np.arange 1876 2020 P = Ok rest
             /\ Forall (fun year => year + P - 1 > 2019) rest).
  { destruct HP as [HP | HP].
    - destruct (arange_periods P ltac:(lia)) as (rest & E & _ & Hrest).
      exists rest. split; [| exact Hrest].
      rewrite E. unfold complete_periods. by rewrite Z.div_small by lia.
    - exists []. split; [| constructor]. unfold Np.arange.
      destruct (Z.eqb_spec P 0); [lia |].
      rewrite seqZ_nil; [reflexivity |].
      pose proof (Z.div_mod (1876 - 2020) P ltac:(lia)).
      pose proof (Z.mod_neg_bound (1876 - 2020) P ltac:(lia)).
      nia. }
  destruct Hyears as (rest & Hyears & Hrest).
  unfold slope_tables. rewrite Hyears. cbn [bind].
  rewrite (for_each_append (table_of_pair vp P rest) (keys vp) []).
  assert (E : map_result (table_of_pair vp P rest) (keys vp)
              = Ok (map (fun _ => slopes_frame [] []) vp)).
  { apply map_result_ok. unfold keys. rewrite !map_map.
    apply map_ext. intros pair. unfold slopes_of_pair.
    by rewrite slopes_loop_break. }
  by rewrite E.
Qed.

End SlopesMore.

(** ** The workbook *)

Lemma slope_tables_length (Value : Type) (numpy : Numpy)
    (vp : vertex_pairs_json Value) (P : Z) (dfs : list DataFrame) :
  slope_tables Value vp P = Ok dfs -> length dfs = length (keys vp).
Proof.
  unfold slope_tables. intros H. apply bind_ok_inv in H as (years & _ & H).
  rewrite (for_each_append (slopes_of_pair Value vp P years) (keys vp) []) in H.
  apply bind_ok_inv in H as (xs & Hxs & [= <-]).
  apply map_result_ok, (f_equal length) in Hxs. by rewrite !length_map in Hxs.
Qed.

Lemma append_sheets {S : Type} (wb : string) (sheets : list S) (cur : list S)
    (books : gmap string (list S)) :
  books !! wb = Some cur ->
  foldl (fun bs sheet => <[wb := default [] (bs !! wb) ++ [sheet]]> bs) books sheets
  = <[wb := cur ++ sheets]> books.
Proof.
  revert cur books. induction sheets as [|s sheets IH]; intros cur books Hcur.
  - simpl. by rewrite app_nil_r, insert_id.
  - cbn [foldl]. rewrite Hcur. cbn [default].
    rewrite (IH (cur ++ [s])) by apply lookup_insert_eq.
    by rewrite insert_insert_eq, <- app_assoc.
Qed.

Section FileMore.

Variable Value : Type.
Context {numpy : Numpy}.
Variable sheet_name_ok : string -> bool.
Variable PROJECT_PATH : string.
Variable os_path_join : list string -> string.

Local Abbreviation run :=
  (get_slopes_by_vertex_pairs Value sheet_name_ok PROJECT_PATH os_path_join).
Local Abbreviation json_path := (vertex_pairs_path PROJECT_PATH os_path_join).

(** Writing the sheets of the tables that are left, under the names
    that are left. *)
Lemma write_sheets (writer : nat) (wb : string) (names_done names : list string)
    (dfs : list DataFrame) (w : world Value) :
  handles Value w !! writer = Some wb ->
  length dfs = length names ->
  Forall (fun name => sheet_name_ok name = true) names ->
  io_for_each Value
    (fun '(i, df) =>
       io_bind Value (io_lift Value (list_getitem (names_done ++ names) i))
         (fun sheet_name => to_excel Value sheet_name_ok writer sheet_name df))
    (imap (fun i df => (length names_done + i, df)%nat) dfs) w
  = (Ok tt,
     {| files := files Value w;
        handles := handles Value w;
        next_handle := next_handle Value w;
        workbooks :=
          foldl (fun bs sheet => <[wb := default [] (bs !! wb) ++ [sheet]]> bs)
                (workbooks Value w) (zip names dfs) |}).
Proof.
  revert names_done names w.
  induction dfs as [|df dfs IH]; intros names_done names w Hw Hlen Hok.
  - destruct names; [| discriminate]. destruct w. reflexivity.
  - destruct names as [|name names]; [discriminate |].
    apply List.Forall_cons_iff in Hok as [Hname Hok].
    cbn [imap io_for_each]. rewrite io_bind_run, io_bind_run.
    unfold io_lift at 1, list_getitem at 1.
    rewrite Nat.add_0_r, list_lookup_middle by reflexivity.
    unfold to_excel at 1. rewrite Hw, Hname.
    rewrite (cons_middle name names_done names), app_assoc.
    rewrite (imap_ext _ (fun i df => (length (names_done ++ [name]) + i, df)%nat))
      by (intros; rewrite length_app; simpl; f_equal; lia).
    rewrite (IH (names_done ++ [name]) names); [reflexivity | exact Hw | | exact Hok].
    by injection Hlen.
Qed.

Lemma run_malformed (folder_name : string) (P : Z) (w : world Value) :
  files Value w !! json_path folder_name = Some None ->
  run folder_name P w
  = (Raise JSONDecodeError, snd (new_handle Value (json_path folder_name) w)).
Proof.
  intros Hfile. unfold get_slopes_by_vertex_pairs. rewrite io_bind_run.
  unfold open_file at 1. rewrite Hfile. cbn [new_handle].
  rewrite io_bind_run. unfold json_load at 1. cbn [handles files].
  by rewrite lookup_insert_eq, Hfile.
Qed.

Lemma run_tables_raise (folder_name : string) (P : Z) (w : world Value)
    (vp : vertex_pairs_json Value) (e : exn) :
  files Value w !! json_path folder_name = Some (Some vp) ->
  slope_tables Value vp P = Raise e ->
  run folder_name P w
  = (Raise e, snd (new_handle Value (json_path folder_name) w)).
Proof.
  intros Hfile Htables. unfold get_slopes_by_vertex_pairs.
  rewrite io_bind_run. unfold open_file at 1. rewrite Hfile. cbn [new_handle].
  rewrite io_bind_run. unfold json_load at 1. cbn [handles files].
  rewrite lookup_insert_eq, Hfile. rewrite io_bind_run. unfold io_lift at 1.
  by rewrite Htables.
Qed.

Lemma run_tables_ok (folder_name : string) (P : Z) (w : world Value)
    (vp : vertex_pairs_json Value) (dfs : list DataFrame) :
  files Value w !! json_path folder_name = Some (Some vp) ->
  slope_tables Value vp P = Ok dfs ->
  Forall (fun name => sheet_name_ok name = true) (keys vp) ->
  run folder_name P w
  = (Ok tt,
     {| files := files Value w;
        handles :=
          delete (S (next_handle Value w))
            (<[S (next_handle Value w) := slopes_workbook_path P]>
               (<[next_handle Value w := json_path folder_name]> (handles Value w)));
        next_handle := S (S (next_handle Value w));
        workbooks :=
          foldl (fun bs sheet =>
                   <[slopes_workbook_path P :=
                       default [] (bs !! slopes_workbook_path P) ++ [sheet]]> bs)
                (workbooks Value w) (zip (keys vp) dfs) |}).
Proof.
  intros Hfile Htables Hnames.
  pose proof (slope_tables_length Value numpy vp P dfs Htables) as Hlen.
  unfold get_slopes_by_vertex_pairs.
  rewrite io_bind_run. unfold open_file at 1. rewrite Hfile. cbn [new_handle].
  rewrite io_bind_run. unfold json_load at 1. cbn [handles files].
  rewrite lookup_insert_eq, Hfile. rewrite io_bind_run. unfold io_lift at 1.
  rewrite Htables. unfold with_excel_writer. cbn [new_handle next_handle].
  rewrite (write_sheets (S (next_handle Value w)) (slopes_workbook_path P) []
             (keys vp) dfs);
    [| cbn [handles]; apply lookup_insert_eq | exact Hlen | exact Hnames].
  reflexivity.
Qed.

(** X15: no workbook is created or changed unless every table has been
    computed: a missing JSON file raises FileNotFoundError, a malformed
    one JSONDecodeError, and an exception of the statistics is passed
    on, each time with the workbooks as they were, because the writer is
    only opened after the loop over the vertex pairs. *)
Theorem no_workbook_on_failure (folder_name : string) (P : Z) (w : world Value) :
  (files Value w !! json_path folder_name = None ->
   run folder_name P w = (Raise FileNotFoundError, w))
  /\ (files Value w !! json_path folder_name = Some None ->
      fst (run folder_name P w) = Raise JSONDecodeError
      /\ workbooks Value (snd (run folder_name P w)) = workbooks Value w)
  /\ (forall vp e,
        files Value w !! json_path folder_name = Some (Some vp) ->
        slope_tables Value vp P = Raise e ->
        fst (run folder_name P w) = Raise e
        /\ workbooks Value (snd (run folder_name P w)) = workbooks Value w).
Proof.
  split; [| split].
  - intros Hfile. unfold get_slopes_by_vertex_pairs. rewrite io_bind_run.
    unfold open_file. by rewrite Hfile.
  - intros Hfile. by rewrite (run_malformed folder_name P w Hfile).
  - intros vp e Hfile Htables.
    by rewrite (run_tables_raise folder_name P w vp e Hfile Htables).
Qed.

(** X16: when the JSON file holds at least one vertex pair, every table
    is computed, every key can name a sheet and no workbook exists yet
    under the output path, the function returns and the workbook
    [{period}-year_slopes_by_vertex_pairs.xlsx] holds one sheet per
    vertex pair, in the order of the keys, each named by its key and
    holding the table of that key. *)
Theorem workbook_sheets (folder_name : string) (P : Z) (w : world Value)
    (vp : vertex_pairs_json Value) (dfs : list DataFrame) :
  vp <> [] ->
  files Value w !! json_path folder_name = Some (Some vp) ->
  slope_tables Value vp P = Ok dfs ->
  Forall (fun name => sheet_name_ok name = true) (keys vp) ->
  workbooks Value w !! slopes_workbook_path P = None ->
  fst (run folder_name P w) = Ok tt
  /\ workbooks Value (snd (run folder_name P w))
     = <[slopes_workbook_path P := zip (keys vp) dfs]> (workbooks Value w).
Proof.
  intros Hne Hfile Htables Hnames Hfresh.
  pose proof (slope_tables_length Value numpy vp P dfs Htables) as Hlen.
  rewrite (run_tables_ok folder_name P w vp dfs Hfile Htables Hnames).
  cbn [fst snd workbooks]. split; [reflexivity |].
  destruct vp as [|[vtx ds] vp']; [contradiction |].
  destruct dfs as [|df dfs']; [discriminate |].
  cbn [keys map zip zip_with foldl fst]. rewrite Hfresh. cbn [default app].
  rewrite (append_sheets _ _ [(vtx, df)]) by apply lookup_insert_eq.
  by rewrite insert_insert_eq.
Qed.

End FileMore.

(** ** Runs on the concrete inputs *)

Lemma march_wave_dated : dated_in_window 1900 march_wave.
Proof.
  unfold dated_in_window, march_wave.
  repeat apply List.Forall_cons; try apply List.Forall_nil; right; left.
  - exists "0"%char, "3"%char, "0"%char, "1"%char. reflexivity.
  - exists "0"%char, "3"%char, "0"%char, "2"%char. reflexivity.
Qed.

Lemma number_of_flood_waves_spec_witness :
  exists n,
    get_number_of_flood_waves_yearly unit unit fixed_graph (fun _ => [march_wave])
      tt "data" !! 24%nat = Some n
    /\ 0 <= n <= 1.
Proof.
  destruct (number_of_flood_waves_spec unit unit fixed_graph (fun _ => [march_wave])
              tt "data") as [_ H].
  destruct (H 1900) as (n & Hn & _ & _ & Hbound); [lia |].
  exists n. split; [exact Hn | exact Hbound].
Defined.

Lemma flood_waves_by_year_of_date_witness :
  Exists (fun n => iso_date_in_year 1900 (snd n)) march_wave.
Proof.
  apply (flood_waves_by_year_of_date unit unit fixed_graph (fun _ => [march_wave])
           1900 tt "data" march_wave); [lia | apply march_wave_dated |].
  left. reflexivity.
Defined.

Lemma flood_wave_not_counted_twice_witness :
  ~ In march_wave
      (get_flood_waves_yearly unit unit fixed_graph (fun _ => [march_wave])
         1901 tt "data").
Proof.
  apply (flood_wave_not_counted_twice unit unit fixed_graph (fun _ => [march_wave])
           1900 tt "data" march_wave); [lia | apply march_wave_dated |].
  left. reflexivity.
Defined.

Lemma moving_average_length_witness :
  yearly_mean_moving_average unit unit unit fixed_graph sample_velocities
    (numpy := Np.reference) tt tt "data" 150 = [].
Proof.
  apply (moving_average_length unit unit unit fixed_graph sample_velocities
           (numpy := Np.reference) tt tt "data" 150).
  lia.
Defined.

Lemma get_statistics_returns_iff_witness :
  exists df,
    get_statistics unit unit unit unit fixed_graph sample_velocities sample_colors
      sample_components (numpy := Np.reference) tt [GInt 1] tt "data" = Ok df.
Proof.
  apply (get_statistics_returns_iff unit unit unit unit fixed_graph sample_velocities
           sample_colors sample_components (numpy := Np.reference)
           tt [GInt 1] tt "data").
  intros i _. apply sample_year_computable.
Defined.

Lemma get_statistics_missing_gauge_witness :
  get_statistics unit unit unit unit fixed_graph sample_velocities sample_colors
    sample_components (numpy := Np.reference) tt [GInt 1; GInt 2] tt "data"
  = Raise KeyError.
Proof.
  apply (get_statistics_missing_gauge unit unit unit unit fixed_graph
           sample_velocities sample_colors sample_components
           (numpy := Np.reference) tt [GInt 1; GInt 2] tt "data" 1876 (GInt 2)).
  - lia.
  - intros j Hj. lia.
  - right. left. reflexivity.
  - reflexivity.
Defined.


Lemma red_ratio_no_period_witness :
  red_ratio empty_colors [GInt 1] "data" 200
  = Ok {| df_index := []; df_columns := [("ratio", [])] |}.
Proof.
  apply (red_ratio_no_period empty_colors [GInt 1] "data" 200). left. lia.
Defined.

Lemma periods_partition_witness :
  (exists start,
     In start [1876; 1926; 1976] /\ (start + 50 - 1 >? 2019) = false
     /\ start <= 1950 <= start + 50 - 1)
  /\ ~ (exists start,
          In start [1876; 1926; 1976] /\ (start + 50 - 1 >? 2019) = false
          /\ start <= 1980 <= start + 50 - 1).
Proof.
  destruct (periods_partition 50 [1876; 1926; 1976]) as [Hcover _];
    [lia | reflexivity |].
  split.
  - apply Hcover. change (144 / 50) with 2. lia.
  - intros H. apply Hcover in H. change (144 / 50) with 2 in H. lia.
Defined.

Lemma low_high_only_fourteen_gauges_witness :
  low_high_by_gauge_yearly sample_colors (replicate 13 (GInt 1)) "data"
  = Raise ValueError
  /\ low_high_by_gauge_yearly sample_colors (replicate 15 (GInt 1)) "data"
     = Raise IndexError.
Proof.
  assert (Hcl : forall n i,
             classifies
               (year_classification sample_colors (replicate n (GInt 1)) "data" i)
               (replicate n (GInt 1))).
  { intros n i g Hin. apply list_elem_of_In, elem_of_replicate in Hin as [-> _].
    eexists. reflexivity. }
  split.
  - apply (low_high_only_fourteen_gauges sample_colors (replicate 13 (GInt 1)) "data");
      [intros i _; apply Hcl | simpl; lia].
  - apply (low_high_only_fourteen_gauges sample_colors (replicate 15 (GInt 1)) "data");
      [intros i _; apply Hcl | simpl; lia].
Defined.

Lemma fourteen_gauges_computable (i : Z) :
  year_computable unit unit unit fixed_graph sample_velocities sample_colors
    (numpy := Np.reference) tt fourteen_gauges tt "data" i.
Proof. split; [apply fourteen_gauges_classified | split; reflexivity]. Qed.

Lemma statistics_counts_sum_grid_witness :
  exists df grid,
    get_statistics unit unit unit unit fixed_graph sample_velocities sample_colors
      sample_components (numpy := Np.reference) tt fourteen_gauges tt "data" = Ok df
    /\ low_high_by_gauge_yearly sample_colors fourteen_gauges "data" = Ok grid
    /\ iat df 24 2 = Some (CInt 28)
    /\ iat grid 24 6 = Some (CFloat (float_of_int 2)).
Proof.
  destruct (get_statistics_total unit unit unit unit fixed_graph sample_velocities
              sample_colors sample_components (numpy := Np.reference)
              tt fourteen_gauges tt "data") as [df Hdf];
    [intros i _; apply fourteen_gauges_computable |].
  destruct (statistics_counts_sum_grid unit unit unit unit fixed_graph
              sample_velocities sample_colors sample_components
              (numpy := Np.reference) tt fourteen_gauges tt "data" df)
    as (grid & Hgrid & Hcells); [reflexivity | exact Hdf |].
  exists df, grid. split; [exact Hdf |]. split; [exact Hgrid |].
  destruct (Hcells 1900) as (Hlow & _ & Hgauge); [lia |].
  split; [exact Hlow |].
  apply (Hgauge 3%nat (GInt 1)). reflexivity.
Defined.

Lemma sample_vertex_pairs_distinct :
  List.NoDup (keys sample_vertex_pairs)
  /\ Forall (fun pair => List.NoDup (keys (snd pair))) sample_vertex_pairs.
Proof.
  split.
  - apply List.NoDup_cons; [intros [] | apply List.NoDup_nil].
  - apply List.Forall_cons; [| apply List.Forall_nil].
    apply List.NoDup_cons; [intros [H | []]; discriminate H |].
    apply List.NoDup_cons; [intros [] | apply List.NoDup_nil].
Qed.

Lemma sample_pools_ok (pair : string * list (string * (unit * slope))) (year : Z) :
  In pair sample_vertex_pairs ->
  In year (periods_with_dates unit (snd pair) 2) ->
  is_ok (np_min (Numpy := Np.reference) (period_pool unit (snd pair) year 2)) = true
  /\ is_ok (np_max (Numpy := Np.reference) (period_pool unit (snd pair) year 2)) = true.
Proof.
  intros [<- | []] Hyear.
  assert (Hy : year = 1876 \/ year = 1880).
  { vm_compute in Hyear. destruct Hyear as [<- | [<- | []]]; auto. }
  destruct Hy as [-> | ->]; split; reflexivity.
Qed.

Lemma slope_tables_returns_iff_witness :
  exists dfs, slope_tables unit (numpy := Np.reference) sample_vertex_pairs 2 = Ok dfs.
Proof.
  apply (slope_tables_returns_iff unit (numpy := Np.reference) sample_vertex_pairs 2);
    [lia | apply sample_vertex_pairs_distinct | apply sample_vertex_pairs_distinct |].
  apply sample_pools_ok.
Defined.

Lemma slope_tables_no_period_witness :
  slope_tables unit (numpy := Np.reference) sample_vertex_pairs 145
  = Ok [slopes_frame [] []].
Proof.
  apply (slope_tables_no_period unit (numpy := Np.reference) sample_vertex_pairs 145).
  left. lia.
Defined.

Lemma no_workbook_on_failure_witness :
  fst (get_slopes_by_vertex_pairs unit (numpy := Np.reference) (fun _ => true) ""
         sample_path "data" 2 malformed_world) = Raise JSONDecodeError
  /\ workbooks unit
       (snd (get_slopes_by_vertex_pairs unit (numpy := Np.reference) (fun _ => true) ""
               sample_path "data" 2 malformed_world)) = ∅.
Proof.
  apply (no_workbook_on_failure unit (numpy := Np.reference) (fun _ => true) ""
           sample_path "data" 2 malformed_world).
  reflexivity.
Defined.

Lemma workbook_sheets_witness :
  exists dfs,
    slope_tables unit (numpy := Np.reference) sample_vertex_pairs 2 = Ok dfs
    /\ workbooks unit
         (snd (get_slopes_by_vertex_pairs unit (numpy := Np.reference) (fun _ => true)
                 "" sample_path "data" 2 sample_world))
       = <[ "2-year_slopes_by_vertex_pairs.xlsx" := zip ["1514-1515"] dfs ]> ∅.
Proof.
  destruct (slope_tables_total unit (numpy := Np.reference) sample_vertex_pairs 2)
    as [dfs Hdfs];
    [lia | apply sample_vertex_pairs_distinct | apply sample_vertex_pairs_distinct
     | apply sample_pools_ok |].
  exists dfs. split; [exact Hdfs |].
  apply (workbook_sheets unit (numpy := Np.reference) (fun _ => true) "" sample_path
           "data" 2 sample_world sample_vertex_pairs dfs).
  - discriminate.
  - reflexivity.
  - exact Hdfs.
  - apply List.Forall_cons; [reflexivity | apply List.Forall_nil].
  - reflexivity.
Defined.
